(** * Identity resolution, quota enforcement and the verification gate

    A shallow embedding of [src/lib/identity.ts], the rate limiter
    ([checkWindowLimit], [applyRateLimit]) and
    [src/lib/turnstile-verification.ts].

    The three modules keep module-level mutable state (the cached
    configuration, the Redis client singletons, the in-process verification
    map) and talk to the outside world (clock, configuration file,
    environment, Redis).  All of that is gathered in one [World] record that
    is threaded through a state-and-exception monad [M].  One request is
    executed at one instant of the clock, and requests are executed one after
    the other. *)

From Stdlib Require Import ZArith String Ascii List Bool Lia.
From stdpp Require Import base option gmap strings pretty.

Local Open Scope string_scope.
Local Open Scope Z_scope.

(** ** JavaScript string and number helpers *)

Module JS.

(** Truthiness of a string: only the empty string is falsy. *)
Definition truthy (s : string) : bool := negb (String.eqb s "").

(** [s.startsWith(p)] *)
Definition startsWith (s p : string) : bool := String.prefix p s.

(** [s.substring(n)] *)
Fixpoint drop (n : nat) (s : string) : string :=
  match n, s with
  | O, _ => s
  | S n', String _ s' => drop n' s'
  | S _, EmptyString => EmptyString
  end.

(** [s.substring(0, n)] *)
Fixpoint take (n : nat) (s : string) : string :=
  match n, s with
  | O, _ => EmptyString
  | S n', String c s' => String c (take n' s')
  | S _, EmptyString => EmptyString
  end.

(** [s.split(sep)] for a one-character separator: never empty. *)
Fixpoint split (sep : ascii) (s : string) : list string :=
  match s with
  | EmptyString => [EmptyString]
  | String c s' =>
      if Ascii.eqb c sep then EmptyString :: split sep s'
      else match split sep s' with
           | [] => [String c EmptyString]
           | x :: xs => String c x :: xs
           end
  end.

(** [s.split(sep)[0]] *)
Definition split_first (sep : ascii) (s : string) : string :=
  match split sep s with
  | [] => EmptyString
  | x :: _ => x
  end.

Definition is_space (c : ascii) : bool :=
  let n := nat_of_ascii c in
  (Nat.eqb n 32 || (Nat.leb 9 n && Nat.leb n 13))%bool.

Fixpoint trim_start (s : string) : string :=
  match s with
  | String c s' => if is_space c then trim_start s' else s
  | EmptyString => EmptyString
  end.

Fixpoint trim_end (s : string) : string :=
  match s with
  | EmptyString => EmptyString
  | String c s' =>
      match trim_end s' with
      | EmptyString => if is_space c then EmptyString else String c EmptyString
      | t => String c t
      end
  end.

(** [s.trim()] on ASCII white space. *)
Definition trim (s : string) : string := trim_end (trim_start s).

(** [a || b] on optional strings ([undefined], [null] and [""] are falsy). *)
Definition or_else (a : option string) (b : option string) : option string :=
  match a with
  | Some s => if truthy s then Some s else b
  | None => b
  end.

(** [n.toString()] for an integer. *)
Definition toString (n : Z) : string := pretty n.

Definition digit_val (radix : Z) (c : ascii) : option Z :=
  let n := Z.of_nat (nat_of_ascii c) in
  let v := if (48 <=? n) && (n <=? 57) then Some (n - 48)
           else if (97 <=? n) && (n <=? 122) then Some (n - 87)
           else if (65 <=? n) && (n <=? 90) then Some (n - 55)
           else None in
  match v with
  | Some d => if d <? radix then Some d else None
  | None => None
  end.

Fixpoint digits_go (radix : Z) (s : string) (acc : option Z) : option Z :=
  match s with
  | EmptyString => acc
  | String c s' =>
      match digit_val radix c with
      | Some d => digits_go radix s' (Some (match acc with
                                            | Some a => a * radix + d
                                            | None => d
                                            end))
      | None => acc
      end
  end.

(** [parseInt(s)] without a radix argument; [None] is [NaN]. *)
Definition parseInt (s : string) : option Z :=
  let s := trim_start s in
  let '(sign, s) :=
    match s with
    | String "-" r => (-1, r)
    | String "+" r => (1, r)
    | _ => (1, s)
    end in
  let '(radix, s) :=
    match s with
    | String "0" (String "x" r) => (16, r)
    | String "0" (String "X" r) => (16, r)
    | _ => (10, s)
    end in
  match digits_go radix s None with
  | Some v => Some (sign * v)
  | None => None
  end.

(** The calendar of [Date], for a local time zone at a fixed offset of
    [tz] seconds east of UTC: proleptic Gregorian days since the epoch. *)
Definition days_from_civil (y m d : Z) : Z :=
  let y' := if m <=? 2 then y - 1 else y in
  let era := y' / 400 in
  let yoe := y' - era * 400 in
  let doy := (153 * (if 2 <? m then m - 3 else m + 9) + 2) / 5 + d - 1 in
  let doe := yoe * 365 + yoe / 4 - yoe / 100 + doy in
  era * 146097 + doe - 719468.

Definition civil_from_days (z : Z) : Z * Z * Z :=
  let z := z + 719468 in
  let era := z / 146097 in
  let doe := z - era * 146097 in
  let yoe := (doe - doe / 1460 + doe / 36524 - doe / 146096) / 365 in
  let doy := doe - (365 * yoe + yoe / 4 - yoe / 100) in
  let mp := (5 * doy + 2) / 153 in
  let d := doy - (153 * mp + 2) / 5 + 1 in
  let m := if mp <? 10 then mp + 3 else mp - 9 in
  ((if m <=? 2 then yoe + era * 400 + 1 else yoe + era * 400), m, d).

(** [new Date(ms).getFullYear()] and [.getMonth()] (zero-based). *)
Definition getFullYear (tz ms : Z) : Z :=
  let '(y, _, _) := civil_from_days ((ms / 1000 + tz) / 86400) in y.
Definition getMonth (tz ms : Z) : Z :=
  let '(_, m, _) := civil_from_days ((ms / 1000 + tz) / 86400) in m - 1.

(** [new Date(year, month, 1).getTime()] *)
Definition firstOfMonth_ms (tz year month0 : Z) : Z :=
  (days_from_civil year (month0 + 1) 1 * 86400 - tz) * 1000.

End JS.

(** ** Configuration ([identity.ts], [ConfigSchema]) *)

Inductive Strategy := JwtSub | SessionCookie | Ip.

Record Limits := {
  minute : Z;
  hour : Z;
  day : Z;
  month : Z;
}.

Record Config := {
  identityOrder : list Strategy;
  jwtSecret : option string;
  limits_global : Limits;
  routesInScope : list string;
  turnstileEnabled : option bool;
}.

(** The object returned by the [catch] branch of [loadConfig]. *)
Definition defaultConfig : Config := {|
  identityOrder := [JwtSub; SessionCookie; Ip];
  jwtSecret := None;
  limits_global := {| minute := 10; hour := 100; day := 1000; month := 30000 |};
  routesInScope := ["/api/proxy/projects"; "/api/proxy/user"];
  turnstileEnabled := Some false;
|}.

(** [limits[window]] for the window names; any other property is
    [undefined], which is falsy like [0]. *)
Definition limits_get (l : Limits) (w : string) : Z :=
  if String.eqb w "minute" then minute l
  else if String.eqb w "hour" then hour l
  else if String.eqb w "day" then day l
  else if String.eqb w "month" then month l
  else 0.

(** ** The world a request runs in *)

(** [config/rate-limits.json] as [loadConfig] sees it: [statSync] throws on
    a missing file; [parsed] is [None] when [readFileSync], [JSON.parse] or
    [ConfigSchema.parse] throws. *)
Inductive ConfigFile :=
| FileMissing
| FilePresent (mtimeMs : Z) (parsed : option Config).

(** [process.env] *)
Record Env := {
  UPSTASH_REDIS_REST_URL : option string;
  UPSTASH_REDIS_REST_TOKEN : option string;
  TURNSTILE_ENABLED : option string;
  TURNSTILE_BYPASS_AUTHENTICATED : option string;
  TURNSTILE_REQUIRED_FOR_IP_USERS : option string;
  TURNSTILE_CACHE_DURATION : option string;
  NEXT_PUBLIC_TURNSTILE_SITE_KEY : option string;
}.

(** A Redis key: an integer value and an optional expiry instant (ms). *)
Record RedisEntry := {
  r_value : Z;
  r_expireAt : option Z;
}.

(** One round trip to Redis, as issued by the client. *)
Inductive RedisCall :=
| PipelineIncrExpire (key : string) (seconds : Z)
| CallGet (key : string)
| CallExists (key : string)
| CallSetEx (key : string) (value : Z) (seconds : option Z).

(** [interface VerificationCache] *)
Record VerificationCache := {
  vc_token : string;
  verifiedAt : Z;
  vc_action : option string;
}.

Record World := {
  w_now : Z;                                   (* Date.now(), milliseconds *)
  w_tz : Z;                                    (* local zone, seconds east of UTC *)
  w_env : Env;
  w_fs : ConfigFile;
  w_cachedConfig : option Config;              (* let cachedConfig *)
  w_configLastModified : Z;                    (* let configLastModified *)
  w_redisClient : bool;                        (* let redisClient, initialised? *)
  w_turnstileRedis : bool;                     (* let turnstileRedis, initialised? *)
  w_redis : gmap string RedisEntry;            (* the shared store *)
  w_faults : list bool;                        (* which coming round trips fail *)
  w_trace : list RedisCall;                    (* round trips issued so far *)
  w_verificationCache : gmap string VerificationCache;  (* const verificationCache *)
}.

Definition set_config (c : option Config) (m : Z) (w : World) : World :=
  {| w_now := w_now w; w_tz := w_tz w; w_env := w_env w; w_fs := w_fs w;
     w_cachedConfig := c; w_configLastModified := m;
     w_redisClient := w_redisClient w; w_turnstileRedis := w_turnstileRedis w;
     w_redis := w_redis w; w_faults := w_faults w; w_trace := w_trace w;
     w_verificationCache := w_verificationCache w |}.

Definition set_redisClient (b : bool) (w : World) : World :=
  {| w_now := w_now w; w_tz := w_tz w; w_env := w_env w; w_fs := w_fs w;
     w_cachedConfig := w_cachedConfig w; w_configLastModified := w_configLastModified w;
     w_redisClient := b; w_turnstileRedis := w_turnstileRedis w;
     w_redis := w_redis w; w_faults := w_faults w; w_trace := w_trace w;
     w_verificationCache := w_verificationCache w |}.

Definition set_turnstileRedis (b : bool) (w : World) : World :=
  {| w_now := w_now w; w_tz := w_tz w; w_env := w_env w; w_fs := w_fs w;
     w_cachedConfig := w_cachedConfig w; w_configLastModified := w_configLastModified w;
     w_redisClient := w_redisClient w; w_turnstileRedis := b;
     w_redis := w_redis w; w_faults := w_faults w; w_trace := w_trace w;
     w_verificationCache := w_verificationCache w |}.

(** The effect of one round trip on the world: the call is recorded, one
    fault decision is consumed, the store is replaced. *)
Definition set_roundtrip (c : RedisCall) (st : gmap string RedisEntry) (w : World) : World :=
  {| w_now := w_now w; w_tz := w_tz w; w_env := w_env w; w_fs := w_fs w;
     w_cachedConfig := w_cachedConfig w; w_configLastModified := w_configLastModified w;
     w_redisClient := w_redisClient w; w_turnstileRedis := w_turnstileRedis w;
     w_redis := st; w_faults := tail (w_faults w); w_trace := w_trace w ++ [c];
     w_verificationCache := w_verificationCache w |}.

Definition set_verificationCache (m : gmap string VerificationCache) (w : World) : World :=
  {| w_now := w_now w; w_tz := w_tz w; w_env := w_env w; w_fs := w_fs w;
     w_cachedConfig := w_cachedConfig w; w_configLastModified := w_configLastModified w;
     w_redisClient := w_redisClient w; w_turnstileRedis := w_turnstileRedis w;
     w_redis := w_redis w; w_faults := w_faults w; w_trace := w_trace w;
     w_verificationCache := m |}.

(** The clock moves between requests; nothing else changes. *)
Definition set_now (t : Z) (w : World) : World :=
  {| w_now := t; w_tz := w_tz w; w_env := w_env w; w_fs := w_fs w;
     w_cachedConfig := w_cachedConfig w; w_configLastModified := w_configLastModified w;
     w_redisClient := w_redisClient w; w_turnstileRedis := w_turnstileRedis w;
     w_redis := w_redis w; w_faults := w_faults w; w_trace := w_trace w;
     w_verificationCache := w_verificationCache w |}.

(** ** State and exceptions *)

Inductive Outcome (A : Type) :=
| Ret (a : A)
| Throw (e : string).
Arguments Ret {A} a.
Arguments Throw {A} e.

Definition M (A : Type) : Type := World -> Outcome A * World.

Definition ret {A} (a : A) : M A := fun w => (Ret a, w).
Definition throw {A} (e : string) : M A := fun w => (Throw e, w).
Definition bind {A B} (m : M A) (k : A -> M B) : M B :=
  fun w => match m w with
           | (Ret a, w') => k a w'
           | (Throw e, w') => (Throw e, w')
           end.
(** [try { m } catch (e) { h e }]: state changes made before the throw stay. *)
Definition try_catch {A} (m : M A) (h : string -> M A) : M A :=
  fun w => match m w with
           | (Ret a, w') => (Ret a, w')
           | (Throw e, w') => h e w'
           end.
Definition get_world : M World := fun w => (Ret w, w).
(** A library call that returns or throws, without touching the world. *)
Definition lift_throw {A} (e : string) (o : option A) : M A :=
  match o with
  | Some a => ret a
  | None => throw e
  end.

Notation "x <~ m ;; k" := (bind m (fun x => k))
  (at level 100, m at next level, right associativity).

(** ** The store: Redis commands on a map with lazy expiry *)

Module Redis.

(** A key is visible strictly before its expiry instant. *)
Definition live (now : Z) (e : RedisEntry) : bool :=
  match r_expireAt e with
  | Some t => now <? t
  | None => true
  end.

Definition lookup (now : Z) (st : gmap string RedisEntry) (k : string)
  : option RedisEntry :=
  match st !! k with
  | Some e => if live now e then Some e else None
  | None => None
  end.

(** INCR: a missing key counts from 0 and gets no expiry; an existing
    key keeps its expiry. *)
Definition incr (now : Z) (st : gmap string RedisEntry) (k : string)
  : Z * gmap string RedisEntry :=
  match lookup now st k with
  | Some e => (r_value e + 1,
               <[k := {| r_value := r_value e + 1; r_expireAt := r_expireAt e |}]> st)
  | None => (1, <[k := {| r_value := 1; r_expireAt := None |}]> st)
  end.

(** EXPIRE: a timeout that is not positive deletes the key. *)
Definition expire (now : Z) (st : gmap string RedisEntry) (k : string) (seconds : Z)
  : gmap string RedisEntry :=
  match lookup now st k with
  | Some e => if seconds <=? 0 then delete k st
              else <[k := {| r_value := r_value e;
                             r_expireAt := Some (now + seconds * 1000) |}]> st
  | None => st
  end.

(** GET, EXISTS, SET .. EX *)
Definition get (now : Z) (st : gmap string RedisEntry) (k : string) : option Z :=
  r_value <$> lookup now st k.
Definition exists_ (now : Z) (st : gmap string RedisEntry) (k : string) : Z :=
  match lookup now st k with
  | Some _ => 1
  | None => 0
  end.
Definition set_ex (now : Z) (st : gmap string RedisEntry) (k : string) (v seconds : Z)
  : gmap string RedisEntry :=
  <[k := {| r_value := v; r_expireAt := Some (now + seconds * 1000) |}]> st.

(** One round trip: the call is recorded; it throws when the head of the
    fault schedule says so (the store is then left alone), else [exec]
    runs on the store at the current instant. *)
Definition roundtrip {A} (c : RedisCall)
    (exec : Z -> gmap string RedisEntry -> Outcome A * gmap string RedisEntry) : M A :=
  fun w =>
    match w_faults w with
    | true :: _ => (Throw "redis", set_roundtrip c (w_redis w) w)
    | _ => let '(r, st) := exec (w_now w) (w_redis w) in
           (r, set_roundtrip c st w)
    end.

(** [pipeline.incr(k); pipeline.expire(k, s); (await pipeline.exec())[0]] *)
Definition pipeline_incr_expire (k : string) (seconds : Z) : M Z :=
  roundtrip (PipelineIncrExpire k seconds)
    (fun now st => let '(n, st1) := incr now st k in
                   (Ret n, expire now st1 k seconds)).

Definition call_get (k : string) : M (option Z) :=
  roundtrip (CallGet k) (fun now st => (Ret (get now st k), st)).

Definition call_exists (k : string) : M Z :=
  roundtrip (CallExists k) (fun now st => (Ret (exists_ now st k), st)).

(** [redis.set(k, v, { ex: seconds })]; [None] is an [ex] that is [NaN],
    which the server rejects. *)
Definition call_set_ex (k : string) (v : Z) (seconds : option Z) : M unit :=
  roundtrip (CallSetEx k v seconds)
    (fun now st => match seconds with
                   | Some s => if 0 <? s then (Ret tt, set_ex now st k v s)
                               else (Throw "ERR invalid expire time", st)
                   | None => (Throw "ERR value is not an integer", st)
                   end).

End Redis.

(** ** Requests and the libraries the code calls *)

(** [cookies()] of [next/headers]: it throws outside a request scope,
    else gives the store, of which only [sessionId] is read. *)
Inductive CookieStore :=
| CookiesUnavailable
| CookiesOf (sessionId : option string).

Record NextRequest := {
  url_pathname : option string;        (* new URL(request.url).pathname, None: throws *)
  h_Authorization : option string;
  h_Cookie : option string;
  h_x_forwarded_for : option string;
  h_x_real_ip : option string;
  h_cf_connecting_ip : option string;
  req_ip : option string;
  req_cookies : CookieStore;
}.

Record JwtPayload := {
  sub : option string;
}.

(** The library functions the modules import; [None] stands for a thrown
    exception (a rejected promise). *)
Class Platform := {
  jwtVerify : string -> string -> option JwtPayload;   (* jose, token and secret *)
  decodeJwt : string -> option JwtPayload;             (* jose *)
  sha256_hex : string -> option string;                (* crypto.subtle.digest, in hex *)
  decodeURIComponent : string -> option string;
}.

(** ** [identity.ts] *)

Definition loadConfig : M Config :=
  try_catch
    (fun w =>
       match w_fs w with
       | FileMissing => (Throw "ENOENT", w)
       | FilePresent mtimeMs parsed =>
           let reload :=
             match parsed with
             | Some c => (Ret c, set_config (Some c) mtimeMs w)
             | None => (Throw "invalid configuration", w)
             end in
           match w_cachedConfig w with
           | None => reload
           | Some c => if w_configLastModified w <? mtimeMs then reload else (Ret c, w)
           end
       end)
    (fun _ => ret defaultConfig).

Definition getIdentityConfig : M Config := loadConfig.

(** [x || null] on a claim. *)
Definition or_null (o : option string) : option string := JS.or_else o None.

Section Identity.
Context `{Platform}.

Definition extractJwtSubject (request : NextRequest) : M (option string) :=
  try_catch
    (match h_Authorization request with
     | None => ret None
     | Some authHeader =>
         if negb (JS.truthy authHeader) || negb (JS.startsWith authHeader "Bearer ")
         then ret None
         else
           let token := JS.drop 7 authHeader in
           config <~ loadConfig ;;
           (* Some r: the inner try returned r; None: fall through *)
           verified <~
             match jwtSecret config with
             | Some secret =>
                 if JS.truthy secret then
                   try_catch
                     (payload <~ lift_throw "JWSSignatureVerificationFailed"
                                   (jwtVerify token secret) ;;
                      ret (Some (or_null (sub payload))))
                     (fun _ => ret None)
                 else ret None
             | None => ret None
             end ;;
           match verified with
           | Some r => ret r
           | None =>
               decoded <~ lift_throw "JWTInvalid" (decodeJwt token) ;;
               ret (or_null (sub decoded))
           end
     end)
    (fun _ => ret None).

(** The reducer of [extractSessionId]: [None] when [decodeURIComponent]
    throws. *)
Definition parseCookie (acc : option (gmap string string)) (cookie : string)
  : option (gmap string string) :=
  match acc with
  | None => None
  | Some m =>
      match JS.split "=" (JS.trim cookie) with
      | name :: value :: _ =>
          if JS.truthy name && JS.truthy value then
            match decodeURIComponent value with
            | Some v => Some (<[name := v]> m)
            | None => None
            end
          else Some m
      | _ => Some m
      end
  end.

Definition extractSessionId (request : NextRequest) : option string :=
  let fromStore :=
    match req_cookies request with
    | CookiesOf (Some v) => if JS.truthy v then Some v else None
    | _ => None
    end in
  match fromStore with
  | Some v => Some v
  | None =>
      match h_Cookie request with
      | None => None
      | Some cookieHeader =>
          if negb (JS.truthy cookieHeader) then None
          else
            match fold_left parseCookie (JS.split ";" cookieHeader) (Some ∅) with
            | Some parsedCookies => or_null (parsedCookies !! "sessionId")
            | None => None          (* caught: return null *)
            end
      end
  end.

(** The address that is hashed. *)
Definition clientIp (request : NextRequest) : string :=
  let first := (fun f => JS.trim (JS.split_first "," f)) <$> h_x_forwarded_for request in
  match JS.or_else first
          (JS.or_else (h_x_real_ip request)
             (JS.or_else (h_cf_connecting_ip request) (req_ip request))) with
  | Some ip => ip
  | None => "127.0.0.1"
  end.

Definition extractHashedIp (request : NextRequest) : string :=
  match sha256_hex (clientIp request) with
  | Some hashHex => JS.take 16 hashHex
  | None => "unknown"
  end.

(** One turn of the loop of [getIdentityKey]: [Some key] returns from the
    function, [None] goes on with the next method. *)
Definition tryMethod (request : NextRequest) (method : Strategy) : M (option string) :=
  try_catch
    (match method with
     | JwtSub =>
         jwtSub <~ extractJwtSubject request ;;
         match jwtSub with
         | Some s => if JS.truthy s then ret (Some ("jwt:" +:+ s)) else ret None
         | None => ret None
         end
     | SessionCookie =>
         match extractSessionId request with
         | Some s => if JS.truthy s then ret (Some ("session:" +:+ s)) else ret None
         | None => ret None
         end
     | Ip => ret (Some ("ip:" +:+ extractHashedIp request))
     end)
    (fun _ => ret None).

Fixpoint identityWaterfall (request : NextRequest) (order : list Strategy) : M string :=
  match order with
  | [] => ret "anonymous"
  | method :: rest =>
      r <~ tryMethod request method ;;
      match r with
      | Some key => ret key
      | None => identityWaterfall request rest
      end
  end.

Definition getIdentityKey (request : NextRequest) : M string :=
  config <~ loadConfig ;;
  identityWaterfall request (identityOrder config).

End Identity.

(** ** The rate limiter *)

Record RateLimitResult := {
  allowed : bool;
  headers : gmap string string;
  remaining : Z;
  resetTime : Z;
  limit : Z;
  window : string;
}.

(** [{ ...result, headers: h }] *)
Definition with_headers (h : gmap string string) (r : RateLimitResult) : RateLimitResult :=
  {| allowed := allowed r; headers := h; remaining := remaining r;
     resetTime := resetTime r; limit := limit r; window := window r |}.

Definition getRedisClient : M unit :=
  fun w =>
    if w_redisClient w then (Ret tt, w)
    else
      match UPSTASH_REDIS_REST_URL (w_env w), UPSTASH_REDIS_REST_TOKEN (w_env w) with
      | Some url, Some token =>
          if JS.truthy url && JS.truthy token then (Ret tt, set_redisClient true w)
          else (Throw "UPSTASH_REDIS_REST_URL and UPSTASH_REDIS_REST_TOKEN must be set in environment", w)
      | _, _ => (Throw "UPSTASH_REDIS_REST_URL and UPSTASH_REDIS_REST_TOKEN must be set in environment", w)
      end.

Definition getCurrentTimestamp : M Z :=
  fun w => (Ret (w_now w / 1000), w).

(** [%] is the remainder of the truncated division. *)
Definition getWindowStart (tz : Z) (windowType : string) (timestamp : Z) : Z :=
  if String.eqb windowType "minute" then timestamp - Z.rem timestamp 60
  else if String.eqb windowType "hour" then timestamp - Z.rem timestamp 3600
  else if String.eqb windowType "day" then timestamp - Z.rem timestamp 86400
  else if String.eqb windowType "month" then
    let date := timestamp * 1000 in
    JS.firstOfMonth_ms tz (JS.getFullYear tz date) (JS.getMonth tz date) / 1000
  else timestamp.

(** [ttlMap[windowType] || 60] *)
Definition ttlMap (windowType : string) : Z :=
  if String.eqb windowType "minute" then 60
  else if String.eqb windowType "hour" then 3600
  else if String.eqb windowType "day" then 86400
  else if String.eqb windowType "month" then 2592000
  else 60.

Definition getResetTime (windowType : string) (windowStart : Z) : Z :=
  windowStart + ttlMap windowType.

Definition generateRedisKey (identityKey window : string) (windowStart : Z) : string :=
  "rate:" +:+ window +:+ ":" +:+ JS.toString windowStart +:+ ":" +:+ identityKey.

Definition checkWindowLimit (identityKey window : string) (limit : Z) (path : string)
  : M RateLimitResult :=
  _ <~ getRedisClient ;;
  timestamp <~ getCurrentTimestamp ;;
  w <~ get_world ;;
  let windowStart := getWindowStart (w_tz w) window timestamp in
  let resetTime := getResetTime window windowStart in
  let redisKey := generateRedisKey identityKey window windowStart in
  try_catch
    (count <~ Redis.pipeline_incr_expire redisKey (resetTime - timestamp) ;;
     let allowed := count <=? limit in
     let remaining := Z.max 0 (limit - count) in
     let base : gmap string string :=
       <["X-RateLimit-Window" := window]>
         (<["X-RateLimit-Reset" := JS.toString resetTime]>
            (<["X-RateLimit-Remaining" := JS.toString remaining]>
               {["X-RateLimit-Limit" := JS.toString limit]})) in
     ret {| allowed := allowed;
            headers := if allowed then base
                       else <["Retry-After" := JS.toString (resetTime - timestamp)]> base;
            remaining := remaining;
            resetTime := resetTime;
            limit := limit;
            window := window |})
    (fun _ =>
       ret {| allowed := true;
              headers :=
                <["X-RateLimit-Error" := "redis-unavailable"]>
                  (<["X-RateLimit-Window" := window]>
                     (<["X-RateLimit-Reset" := JS.toString (timestamp + 60)]>
                        (<["X-RateLimit-Remaining" := JS.toString limit]>
                           {["X-RateLimit-Limit" := JS.toString limit]})));
              remaining := limit;
              resetTime := timestamp + 60;
              limit := limit;
              window := window |}).

Definition isRouteInScope (path : string) : M bool :=
  config <~ getIdentityConfig ;;
  ret (existsb (fun route => JS.startsWith path route) (routesInScope config)).

(** [x || 999999] on a number. *)
Definition or_999999 (x : Z) : Z := if x =? 0 then 999999 else x.

(** The loop over the windows: [Some r] is the early return of a denied
    window, [None] means that every window passed. *)
Fixpoint checkWindows (identityKey path : string) (limits : Limits) (windows : list string)
  : M (option RateLimitResult) :=
  match windows with
  | [] => ret None
  | window :: rest =>
      if limits_get limits window =? 0 then checkWindows identityKey path limits rest
      else
        result <~ checkWindowLimit identityKey window (limits_get limits window) path ;;
        if negb (allowed result) then
          ret (Some (with_headers
                       (<["X-RateLimit-Identity" := JS.split_first ":" identityKey]>
                          (headers result))
                       result))
        else checkWindows identityKey path limits rest
  end.

Section RateLimit.
Context `{Platform}.

Definition applyRateLimit (request : NextRequest) : M RateLimitResult :=
  try_catch
    (path <~ lift_throw "Invalid URL" (url_pathname request) ;;
     inScope <~ isRouteInScope path ;;
     if negb inScope then
       now <~ getCurrentTimestamp ;;
       ret {| allowed := true;
              headers := {["X-RateLimit-Scope" := "excluded"]};
              remaining := 999999;
              resetTime := now + 3600;
              limit := 999999;
              window := "none" |}
     else
       identityKey <~ getIdentityKey request ;;
       config <~ getIdentityConfig ;;
       let limits := limits_global config in
       denied <~ checkWindows identityKey path limits ["minute"; "hour"; "day"; "month"] ;;
       match denied with
       | Some result => ret result
       | None =>
           now <~ getCurrentTimestamp ;;
           actual <~
             (if minute limits =? 0 then ret (or_999999 (minute limits), now + 60)
              else
                try_catch
                  (_ <~ getRedisClient ;;
                   timestamp <~ getCurrentTimestamp ;;
                   w <~ get_world ;;
                   let windowStart := getWindowStart (w_tz w) "minute" timestamp in
                   let redisKey := generateRedisKey identityKey "minute" windowStart in
                   got <~ Redis.call_get redisKey ;;
                   let currentCount := default 0 got in
                   ret (Z.max 0 (minute limits - currentCount),
                        getResetTime "minute" windowStart))
                  (fun _ => ret (or_999999 (minute limits), now + 60))) ;;
           let '(actualRemaining, actualResetTime) := actual in
           ret {| allowed := true;
                  headers :=
                    <["X-RateLimit-Identity" := JS.split_first ":" identityKey]>
                      (<["X-RateLimit-Window" := "minute"]>
                         (<["X-RateLimit-Reset" := JS.toString actualResetTime]>
                            (<["X-RateLimit-Remaining" := JS.toString actualRemaining]>
                               {["X-RateLimit-Limit" := JS.toString (or_999999 (minute limits))]})));
                  remaining := actualRemaining;
                  resetTime := actualResetTime;
                  limit := or_999999 (minute limits);
                  window := "minute" |}
       end)
    (fun _ =>
       now <~ getCurrentTimestamp ;;
       ret {| allowed := true;
              headers := {["X-RateLimit-Error" := "system-error"]};
              remaining := 999999;
              resetTime := now + 3600;
              limit := 999999;
              window := "error" |}).

(** [enforceRateLimit] throws a [RateLimitError] on a denied request. *)
Definition enforceRateLimit (request : NextRequest) : M (gmap string string) :=
  result <~ applyRateLimit request ;;
  if negb (allowed result) then throw "Rate limit exceeded"
  else ret (headers result).

End RateLimit.

(** ** [turnstile-verification.ts] *)

Record TurnstileConfig := {
  enabled : bool;
  bypassAuthenticated : bool;
  requiredForIPUsers : bool;
  cacheDuration : option Z;          (* milliseconds; None is NaN *)
  siteKey : option string;
}.

(** [process.env.X === 'true'] and [process.env.X !== 'false'] *)
Definition env_is (o : option string) (s : string) : bool :=
  match o with
  | Some v => String.eqb v s
  | None => false
  end.

Definition getTurnstileConfig (env : Env) : TurnstileConfig := {|
  enabled := env_is (TURNSTILE_ENABLED env) "true";
  bypassAuthenticated := negb (env_is (TURNSTILE_BYPASS_AUTHENTICATED env) "false");
  requiredForIPUsers := negb (env_is (TURNSTILE_REQUIRED_FOR_IP_USERS env) "false");
  cacheDuration :=
    (fun n => n * 1000) <$>
      JS.parseInt (default "300" (JS.or_else (TURNSTILE_CACHE_DURATION env) None));
  siteKey := NEXT_PUBLIC_TURNSTILE_SITE_KEY env;
|}.

Arguments getTurnstileConfig : simpl never.

(** [null] when the store is not configured, else the client singleton. *)
Definition getTurnstileRedis : M bool :=
  fun w =>
    match UPSTASH_REDIS_REST_URL (w_env w), UPSTASH_REDIS_REST_TOKEN (w_env w) with
    | Some url, Some token =>
        if JS.truthy url && JS.truthy token then (Ret true, set_turnstileRedis true w)
        else (Ret false, w)
    | _, _ => (Ret false, w)
    end.

Definition isTurnstileRequired (env : Env) (identityKey : string) : bool :=
  let config := getTurnstileConfig env in
  if negb (enabled config) then false
  else if bypassAuthenticated config && JS.startsWith identityKey "jwt:" then false
  else if bypassAuthenticated config && JS.startsWith identityKey "session:" then false
  else if JS.startsWith identityKey "ip:" && requiredForIPUsers config then true
  else false.

Definition getCacheKey (identityKey : string) : string :=
  "turnstile:verified:" +:+ identityKey.

(** [a < b] where [b] may be [NaN]. *)
Definition lt_num (a : Z) (b : option Z) : bool :=
  match b with
  | Some b => a <? b
  | None => false
  end.

Definition hasValidCachedVerification (identityKey : string) : M bool :=
  w0 <~ get_world ;;
  let config := getTurnstileConfig (w_env w0) in
  let cacheKey := getCacheKey identityKey in
  (* 1) Redis: true is the early return *)
  inRedis <~
    try_catch
      (redis <~ getTurnstileRedis ;;
       if redis then
         ex <~ Redis.call_exists cacheKey ;;
         ret (ex =? 1)
       else ret false)
      (fun _ => ret false) ;;
  if inRedis then ret true
  else
    (* 2) in-memory *)
    w <~ get_world ;;
    match w_verificationCache w !! cacheKey with
    | None => ret false
    | Some cached =>
        let now := w_now w in
        if lt_num (now - verifiedAt cached) (cacheDuration config) then ret true
        else fun w' =>
               (Ret false,
                set_verificationCache (delete cacheKey (w_verificationCache w')) w')
    end.

Definition isIdentityVerified (identityKey : string) : M bool :=
  hasValidCachedVerification identityKey.

(** [Math.max(1, Math.floor(d / 1000))] *)
Definition ttlSeconds (d : option Z) : option Z :=
  (fun d => Z.max 1 (d / 1000)) <$> d.

Definition cacheVerification (identityKey token : string) (action : option string) : M unit :=
  w0 <~ get_world ;;
  let cacheKey := getCacheKey identityKey in
  let now := w_now w0 in
  _ <~ try_catch
         (redis <~ getTurnstileRedis ;;
          if redis then
            Redis.call_set_ex cacheKey 1
              (ttlSeconds (cacheDuration (getTurnstileConfig (w_env w0))))
          else ret tt)
         (fun _ => ret tt) ;;
  fun w =>
    (Ret tt,
     set_verificationCache
       (<[cacheKey := {| vc_token := token; verifiedAt := now; vc_action := action |}]>
          (w_verificationCache w)) w).

Inductive BypassReason := Authenticated | Disabled | Cached.

Record TurnstileVerificationResult := {
  verified : bool;
  required : bool;
  error : option string;
  bypassReason : option BypassReason;
}.

Definition applyTurnstileVerification (identityKey : string) : M TurnstileVerificationResult :=
  w <~ get_world ;;
  let config := getTurnstileConfig (w_env w) in
  if negb (enabled config) then
    ret {| verified := true; required := false; error := None;
           bypassReason := Some Disabled |}
  else if negb (isTurnstileRequired (w_env w) identityKey) then
    ret {| verified := true; required := false; error := None;
           bypassReason :=
             Some (if JS.startsWith identityKey "jwt:" || JS.startsWith identityKey "session:"
                   then Authenticated else Disabled) |}
  else
    cached <~ hasValidCachedVerification identityKey ;;
    if cached then
      ret {| verified := true; required := true; error := None;
             bypassReason := Some Cached |}
    else
      ret {| verified := false; required := true;
             error := Some "Turnstile verification required - please complete the security challenge";
             bypassReason := None |}.

(** ** Running requests one after the other *)

(** The world left by a computation, and its outcome. *)
Definition world_after {A} (m : M A) (w : World) : World := snd (m w).
Definition outcome_of {A} (m : M A) (w : World) : Outcome A := fst (m w).

(** [checkWindowLimit] called once at each of the instants [times]
    (milliseconds), in order, against the same identity and window; the
    results are collected. *)
Fixpoint checkAt (identityKey window : string) (limit : Z) (path : string)
    (times : list Z) (w : World) : list (Outcome RateLimitResult) * World :=
  match times with
  | [] => ([], w)
  | t :: rest =>
      let '(r, w1) := checkWindowLimit identityKey window limit path (set_now t w) in
      let '(rs, w2) := checkAt identityKey window limit path rest w1 in
      (r :: rs, w2)
  end.


(** * Scenarios and specification predicates *)

(** The source failed under the eyes of [loadConfig]: the file cannot be
    stat'ed, or a (re)load was due and reading or validating it threw. *)
Definition load_fails (w : World) : bool :=
  match w_fs w with
  | FileMissing => true
  | FilePresent mtimeMs None =>
      match w_cachedConfig w with
      | None => true
      | Some _ => w_configLastModified w <? mtimeMs
      end
  | FilePresent _ (Some _) => false
  end.

Definition customConfig : Config := {|
  identityOrder := [Ip];
  jwtSecret := Some "s3cret";
  limits_global := {| minute := 5; hour := 50; day := 500; month := 5000 |};
  routesInScope := ["/api/chat"];
  turnstileEnabled := Some true;
|}.

Definition noEnv : Env := {|
  UPSTASH_REDIS_REST_URL := None;
  UPSTASH_REDIS_REST_TOKEN := None;
  TURNSTILE_ENABLED := None;
  TURNSTILE_BYPASS_AUTHENTICATED := None;
  TURNSTILE_REQUIRED_FOR_IP_USERS := None;
  TURNSTILE_CACHE_DURATION := None;
  NEXT_PUBLIC_TURNSTILE_SITE_KEY := None;
|}.

(** A process that loaded [customConfig] at mtime 1000, after which the
    file was deleted. *)
Definition world_config_deleted : World := {|
  w_now := 1706702400000; w_tz := 0; w_env := noEnv;
  w_fs := FileMissing;
  w_cachedConfig := Some customConfig; w_configLastModified := 1000;
  w_redisClient := false; w_turnstileRedis := false;
  w_redis := ∅; w_faults := []; w_trace := [];
  w_verificationCache := ∅;
|}.


(** A request without any authentication material. *)
Definition bareRequest (path : string) : NextRequest := {|
  url_pathname := Some path;
  h_Authorization := None;
  h_Cookie := None;
  h_x_forwarded_for := None;
  h_x_real_ip := None;
  h_cf_connecting_ip := None;
  req_ip := None;
  req_cookies := CookiesUnavailable;
|}.

(** A runtime in which every library call throws: no [crypto.subtle], no
    token that verifies or decodes. *)
Definition brokenPlatform : Platform := {|
  jwtVerify := fun _ _ => None;
  decodeJwt := fun _ => None;
  sha256_hex := fun _ => None;
  decodeURIComponent := fun _ => None;
|}.

(** The gate switched on, everything else left at its default. *)
Definition gateEnv : Env := {|
  UPSTASH_REDIS_REST_URL := None;
  UPSTASH_REDIS_REST_TOKEN := None;
  TURNSTILE_ENABLED := Some "true";
  TURNSTILE_BYPASS_AUTHENTICATED := None;
  TURNSTILE_REQUIRED_FOR_IP_USERS := None;
  TURNSTILE_CACHE_DURATION := None;
  NEXT_PUBLIC_TURNSTILE_SITE_KEY := None;
|}.

(** A fresh process: nothing cached, nothing stored, no configuration file. *)
Definition freshWorld (env : Env) (now : Z) : World := {|
  w_now := now; w_tz := 0; w_env := env;
  w_fs := FileMissing;
  w_cachedConfig := None; w_configLastModified := 0;
  w_redisClient := false; w_turnstileRedis := false;
  w_redis := ∅; w_faults := []; w_trace := [];
  w_verificationCache := ∅;
|}.

(** What [applyTurnstileVerification] answers to a bypassed identity. *)
Definition bypassedAsAuthenticated : TurnstileVerificationResult := {|
  verified := true; required := false; error := None;
  bypassReason := Some Authenticated;
|}.

(** [url && token] of the two store variables. *)
Definition redis_configured (env : Env) : bool :=
  match UPSTASH_REDIS_REST_URL env, UPSTASH_REDIS_REST_TOKEN env with
  | Some url, Some token => JS.truthy url && JS.truthy token
  | _, _ => false
  end.

(** The next round trip is scheduled to fail. *)
Definition next_fault (w : World) : bool :=
  match w_faults w with
  | true :: _ => true
  | _ => false
  end.

(** The shared store is configured, reachable, and reports a record for the
    identity. *)
Definition store_reports (w : World) (identityKey : string) : bool :=
  redis_configured (w_env w) && negb (next_fault w)
  && (Redis.exists_ (w_now w) (w_redis w) (getCacheKey identityKey) =? 1).

(** The in-process map holds a record for the identity that is younger than
    the cache duration. *)
Definition memory_reports (w : World) (identityKey : string) : bool :=
  match w_verificationCache w !! getCacheKey identityKey with
  | Some cached =>
      lt_num (w_now w - verifiedAt cached) (cacheDuration (getTurnstileConfig (w_env w)))
  | None => false
  end.

(** The store is configured. *)
Definition storeEnv : Env := {|
  UPSTASH_REDIS_REST_URL := Some "https://store.example";
  UPSTASH_REDIS_REST_TOKEN := Some "token";
  TURNSTILE_ENABLED := Some "true";
  TURNSTILE_BYPASS_AUTHENTICATED := None;
  TURNSTILE_REQUIRED_FOR_IP_USERS := None;
  TURNSTILE_CACHE_DURATION := None;
  NEXT_PUBLIC_TURNSTILE_SITE_KEY := None;
|}.

(** The store is reachable and holds nothing; the in-process map holds a
    record for ["ip:0123456789abcdef"] made one second ago. *)
Definition world_memory_only : World := {|
  w_now := 1706702400000; w_tz := 0; w_env := storeEnv;
  w_fs := FileMissing;
  w_cachedConfig := None; w_configLastModified := 0;
  w_redisClient := false; w_turnstileRedis := true;
  w_redis := ∅; w_faults := []; w_trace := [];
  w_verificationCache :=
    {[ "turnstile:verified:ip:0123456789abcdef" :=
         {| vc_token := "tok"; verifiedAt := 1706702399000; vc_action := None |} ]};
|}.

(** A stand-in for the libraries that keeps their contracts.  A token is
    written [<sub>.<key it was signed with>]: [jwtVerify] accepts it when it
    was signed with the secret, [decodeJwt] reads the payload without
    looking at the signature.  The digest is the stub of a hash: 64 hex
    digits. *)
Definition standInPlatform : Platform := {|
  jwtVerify := fun token secret =>
    match JS.split "." token with
    | [s; k] => if String.eqb k secret then Some {| sub := Some s |} else None
    | _ => None
    end;
  decodeJwt := fun token =>
    match JS.split "." token with
    | [s; _] => Some {| sub := Some s |}
    | _ => None
    end;
  sha256_hex := fun _ =>
    Some "12ca17b49af2289436f303e0166030a21e525d266e209267433801a8fd4071a0";
  decodeURIComponent := fun s => Some s;
|}.

(** A deployment with a verification secret. *)
Definition secretConfig : Config := {|
  identityOrder := [JwtSub; SessionCookie; Ip];
  jwtSecret := Some "s3cret";
  limits_global := {| minute := 10; hour := 100; day := 1000; month := 30000 |};
  routesInScope := ["/api/proxy/projects"; "/api/proxy/user"];
  turnstileEnabled := Some false;
|}.

Definition world_with_secret : World := {|
  w_now := 1706702400000; w_tz := 0; w_env := storeEnv;
  w_fs := FilePresent 1000 (Some secretConfig);
  w_cachedConfig := None; w_configLastModified := 0;
  w_redisClient := false; w_turnstileRedis := false;
  w_redis := ∅; w_faults := []; w_trace := [];
  w_verificationCache := ∅;
|}.

(** A bearer token naming [user123], signed with a key that is not the
    deployment's secret. *)
Definition forgedRequest : NextRequest := {|
  url_pathname := Some "/api/proxy/projects";
  h_Authorization := Some "Bearer user123.attacker-key";
  h_Cookie := None;
  h_x_forwarded_for := Some "203.0.113.7";
  h_x_real_ip := None;
  h_cf_connecting_ip := None;
  req_ip := None;
  req_cookies := CookiesUnavailable;
|}.

(** [getRedisClient] will succeed: the singleton exists or can be made. *)
Definition client_available (w : World) : bool :=
  w_redisClient w || redis_configured (w_env w).

(** No coming round trip is scheduled to fail. *)
Definition no_faults (w : World) : Prop :=
  Forall (fun b => b = false) (w_faults w).

(** What [checkWindowLimit] returns when the pipeline answered [count]. *)
Definition countedResult (window : string) (limit resetTime timestamp count : Z)
  : RateLimitResult :=
  let base : gmap string string :=
    <["X-RateLimit-Window" := window]>
      (<["X-RateLimit-Reset" := JS.toString resetTime]>
         (<["X-RateLimit-Remaining" := JS.toString (Z.max 0 (limit - count))]>
            {["X-RateLimit-Limit" := JS.toString limit]})) in
  {| allowed := count <=? limit;
     headers := if count <=? limit then base
                else <["Retry-After" := JS.toString (resetTime - timestamp)]> base;
     remaining := Z.max 0 (limit - count);
     resetTime := resetTime;
     limit := limit;
     window := window |}.

(** What [checkWindowLimit] returns when the pipeline threw. *)
Definition degradedResult (window : string) (limit timestamp : Z) : RateLimitResult :=
  {| allowed := true;
     headers :=
       <["X-RateLimit-Error" := "redis-unavailable"]>
         (<["X-RateLimit-Window" := window]>
            (<["X-RateLimit-Reset" := JS.toString (timestamp + 60)]>
               (<["X-RateLimit-Remaining" := JS.toString limit]>
                  {["X-RateLimit-Limit" := JS.toString limit]})));
     remaining := limit;
     resetTime := timestamp + 60;
     limit := limit;
     window := window |}.

(** The windows whose start is a multiple of their duration. *)
Definition aligned_window (window : string) : Prop :=
  window = "minute" \/ window = "hour" \/ window = "day".

(** The counter [key] stands at [c], and if it exists it does not expire
    before the instant [bound] (milliseconds). *)
Definition counter_at (w : World) (key : string) (c bound : Z) : Prop :=
  (c = 0 /\ w_redis w !! key = None)
  \/ (exists e, w_redis w !! key = Some {| r_value := c; r_expireAt := Some e |}
                /\ bound <= e).

(** What a caller sees of a window check. *)
Definition verdict (o : Outcome RateLimitResult) : option (bool * Z * option string) :=
  match o with
  | Ret r => Some (allowed r, remaining r, headers r !! "Retry-After")
  | Throw _ => None
  end.

(** Noon UTC on 31 January 2024, in milliseconds and in seconds. *)
Definition jan31_noon_ms : Z := 1706702400000.
Definition jan31_noon : Z := 1706702400.

(** The store is configured but every round trip to it throws; the default
    configuration is in force. *)
Definition world_store_down : World := {|
  w_now := jan31_noon_ms; w_tz := 0; w_env := storeEnv;
  w_fs := FileMissing;
  w_cachedConfig := None; w_configLastModified := 0;
  w_redisClient := false; w_turnstileRedis := false;
  w_redis := ∅; w_faults := [true; true; true; true; true]; w_trace := [];
  w_verificationCache := ∅;
|}.

(** The first round trip throws, the following ones go through; the hour
    counter of the caller already stands at the default hourly limit. *)
Definition world_store_flaky : World := {|
  w_now := jan31_noon_ms; w_tz := 0; w_env := storeEnv;
  w_fs := FileMissing;
  w_cachedConfig := None; w_configLastModified := 0;
  w_redisClient := false; w_turnstileRedis := false;
  w_redis := {[ "rate:hour:1706702400:ip:12ca17b49af22894" :=
                  {| r_value := 100; r_expireAt := Some 1706706000000 |} ]};
  w_faults := [true]; w_trace := [];
  w_verificationCache := ∅;
|}.

(** An anonymous caller on a route in scope. *)
Definition inScopeRequest : NextRequest := {|
  url_pathname := Some "/api/proxy/projects";
  h_Authorization := None;
  h_Cookie := None;
  h_x_forwarded_for := Some "203.0.113.7, 10.0.0.1";
  h_x_real_ip := None;
  h_cf_connecting_ip := None;
  req_ip := None;
  req_cookies := CookiesUnavailable;
|}.


(** * Further scenarios and specification predicates *)

(** The configuration cache is up to date: [loadConfig] answers [c] and
    changes nothing. *)
Definition steady (w : World) (c : Config) : Prop :=
  loadConfig w = (Ret c, w).

(** The two worlds differ at most in the configuration cache. *)
Definition same_but_config (w w' : World) : Prop :=
  exists cc m, w' = set_config cc m w.

(** The four identity kinds, as [X-RateLimit-Identity] shows them. *)
Definition identityKinds : list string := ["jwt"; "session"; "ip"; "anonymous"].

(** The character [c] occurs in [s]. *)
Fixpoint has_char (c : ascii) (s : string) : bool :=
  match s with
  | EmptyString => false
  | String c' s' => Ascii.eqb c' c || has_char c s'
  end.

(** The window names [applyRateLimit] iterates over. *)
Definition windowNames : list string := ["minute"; "hour"; "day"; "month"].


(** A process that has loaded the configuration [c] from a file that has
    not changed since. *)
Definition loadedWorld (c : Config) (env : Env) (now : Z) (faults : list bool)
    (store : gmap string RedisEntry) : World := {|
  w_now := now; w_tz := 0; w_env := env;
  w_fs := FilePresent 1000 (Some c);
  w_cachedConfig := Some c; w_configLastModified := 1000;
  w_redisClient := false; w_turnstileRedis := false;
  w_redis := store; w_faults := faults; w_trace := [];
  w_verificationCache := ∅;
|}.

(** Every limit at zero. *)
Definition unlimitedConfig : Config := {|
  identityOrder := [JwtSub; SessionCookie; Ip];
  jwtSecret := None;
  limits_global := {| minute := 0; hour := 0; day := 0; month := 0 |};
  routesInScope := ["/api/proxy/projects"; "/api/proxy/user"];
  turnstileEnabled := Some false;
|}.

(** Two requests a minute, twenty an hour, no day or month limit. *)
Definition tightConfig : Config := {|
  identityOrder := [JwtSub; SessionCookie; Ip];
  jwtSecret := None;
  limits_global := {| minute := 2; hour := 20; day := 0; month := 0 |};
  routesInScope := ["/api/proxy/projects"; "/api/proxy/user"];
  turnstileEnabled := Some false;
|}.

(** The minute counter of the caller of [inScopeRequest] under
    [standInPlatform], at noon of 31 January 2024, standing at [n]. *)
Definition minuteCounterAt (n : Z) : gmap string RedisEntry :=
  {[ "rate:minute:1706702400:ip:12ca17b49af22894" :=
       {| r_value := n; r_expireAt := Some 1706702460000 |} ]}.

(** ** More of the store: DEL and TTL *)

(** The effect of a maintenance round trip (DEL, TTL): one fault decision
    is consumed and the store is replaced.  [w_trace] keeps the round trips of
    the request path only; these calls are not added to it. *)
Definition set_store (st : gmap string RedisEntry) (w : World) : World :=
  {| w_now := w_now w; w_tz := w_tz w; w_env := w_env w; w_fs := w_fs w;
     w_cachedConfig := w_cachedConfig w; w_configLastModified := w_configLastModified w;
     w_redisClient := w_redisClient w; w_turnstileRedis := w_turnstileRedis w;
     w_redis := st; w_faults := tail (w_faults w); w_trace := w_trace w;
     w_verificationCache := w_verificationCache w |}.

Module RedisMore.

(** A round trip that throws when the head of the fault schedule says so,
    and else runs [exec] on the store at the current instant. *)
Definition roundtrip {A} (exec : Z -> gmap string RedisEntry -> A * gmap string RedisEntry)
  : M A :=
  fun w =>
    match w_faults w with
    | true :: _ => (Throw "redis", set_store (w_redis w) w)
    | _ => let '(r, st) := exec (w_now w) (w_redis w) in (Ret r, set_store st w)
    end.

(** DEL k1 k2 ... *)
Definition del (st : gmap string RedisEntry) (keys : list string) : gmap string RedisEntry :=
  foldr delete st keys.

(** TTL: -2 for a missing key, -1 for a key without expiry, else the time
    left, rounded to seconds. *)
Definition ttl (now : Z) (st : gmap string RedisEntry) (k : string) : Z :=
  match Redis.lookup now st k with
  | Some e => match r_expireAt e with
              | Some t => (t - now + 500) / 1000
              | None => -1
              end
  | None => -2
  end.

Definition call_del (keys : list string) : M unit :=
  roundtrip (fun _ st => (tt, del st keys)).

Definition call_ttl (k : string) : M Z :=
  roundtrip (fun now st => (ttl now st k, st)).

End RedisMore.

(** ** More of [turnstile-verification.ts] *)

(** The result of [getVerificationStatus]; [ttlSeconds] is [None] for
    null and [Some None] for NaN. *)
Record VerificationStatus := {
  vs_verified : bool;
  vs_ttlSeconds : option (option Z);
}.

Definition getVerificationStatus (identityKey : string) : M VerificationStatus :=
  let cacheKey := getCacheKey identityKey in
  (* Some ttl: the early return from the try block *)
  fromRedis <~
    try_catch
      (redis <~ getTurnstileRedis ;;
       if redis then
         ttl <~ RedisMore.call_ttl cacheKey ;;
         if 0 <? ttl then ret (Some ttl) else ret None
       else ret None)
      (fun _ => ret None) ;;
  match fromRedis with
  | Some ttl => ret {| vs_verified := true; vs_ttlSeconds := Some (Some ttl) |}
  | None =>
      w <~ get_world ;;
      match w_verificationCache w !! cacheKey with
      | None => ret {| vs_verified := false; vs_ttlSeconds := None |}
      | Some cached =>
          let elapsedMs := w_now w - verifiedAt cached in
          let remainMs :=
            (fun d => Z.max 0 (d - elapsedMs))
              <$> cacheDuration (getTurnstileConfig (w_env w)) in
          ret {| vs_verified := match remainMs with
                                | Some r => 0 <? r
                                | None => false
                                end;
                 vs_ttlSeconds := Some ((fun r => r / 1000) <$> remainMs) |}
      end
  end.

Definition clearVerificationCache (identityKey : string) : M unit :=
  let cacheKey := getCacheKey identityKey in
  _ <~ try_catch
         (redis <~ getTurnstileRedis ;;
          if redis then RedisMore.call_del [cacheKey] else ret tt)
         (fun _ => ret tt) ;;
  fun w =>
    (Ret tt, set_verificationCache (delete cacheKey (w_verificationCache w)) w).

(** The callback of [setInterval]: entries verified more than five minutes
    ago are deleted from the map. *)
Definition sweepVerificationCache : M unit :=
  fun w =>
    let now := w_now w in
    let fiveMinutes := 5 * 60 * 1000 in
    (Ret tt,
     set_verificationCache
       (filter (fun kv => ~ (fiveMinutes < now - verifiedAt kv.2))
          (w_verificationCache w)) w).

Record CacheStats := {
  totalEntries : nat;
  validEntries : nat;
  expiredEntries : nat;
  cacheDurationMs : option Z;
}.

(** The loop of [getVerificationCacheStats] over the values of the map. *)
Definition countEntries (now : Z) (d : option Z) (values : list VerificationCache)
  : nat * nat :=
  fold_left
    (fun '(validEntries, expiredEntries) cache =>
       if lt_num (now - verifiedAt cache) d
       then (S validEntries, expiredEntries)
       else (validEntries, S expiredEntries))
    values (O, O).

Definition getVerificationCacheStats (w : World) : CacheStats :=
  let now := w_now w in
  let config := getTurnstileConfig (w_env w) in
  let '(validEntries, expiredEntries) :=
    countEntries now (cacheDuration config) (map_to_list (w_verificationCache w)).*2 in
  {| totalEntries := size (w_verificationCache w);
     validEntries := validEntries;
     expiredEntries := expiredEntries;
     cacheDurationMs := cacheDuration config |}.

Definition getTurnstileSiteKey (env : Env) : option string :=
  let config := getTurnstileConfig env in
  if enabled config then or_null (siteKey config) else None.

(** ** [lib/admin/analytics.ts] *)

(** [getRedisClient] of the analytics module: a new client per call, and
    an error when the store is not configured. *)
Definition analyticsRedisClient : M unit :=
  fun w =>
    if redis_configured (w_env w) then (Ret tt, w)
    else (Throw "Redis not configured", w).

Record TimeWindows := {
  tw_minute : Z;
  tw_hour : Z;
  tw_day : Z;
}.

Definition getTimeWindows : M TimeWindows :=
  fun w =>
    let now := w_now w / 1000 in
    (Ret {| tw_minute := now - Z.rem now 60;
            tw_hour := now - Z.rem now 3600;
            tw_day := now - Z.rem now 86400 |}, w).

(** The [window] argument of [resetUserCounters]. *)
Inductive ResetWindow := ResetMinute | ResetHour | ResetDay.

Definition resetWindowName (window : ResetWindow) : string :=
  match window with
  | ResetMinute => "minute"
  | ResetHour => "hour"
  | ResetDay => "day"
  end.

(** [timeWindows[window]] *)
Definition timeWindow (timeWindows : TimeWindows) (window : ResetWindow) : Z :=
  match window with
  | ResetMinute => tw_minute timeWindows
  | ResetHour => tw_hour timeWindows
  | ResetDay => tw_day timeWindows
  end.

Definition resetUserCounters (identityKey : string) (window : option ResetWindow) : M unit :=
  _ <~ analyticsRedisClient ;;
  timeWindows <~ getTimeWindows ;;
  try_catch
    (match window with
     | Some window =>
         let windowStart := timeWindow timeWindows window in
         let key := "rate:" +:+ resetWindowName window +:+ ":"
                    +:+ JS.toString windowStart +:+ ":" +:+ identityKey in
         RedisMore.call_del [key]
     | None =>
         let keys :=
           ["rate:minute:" +:+ JS.toString (tw_minute timeWindows) +:+ ":" +:+ identityKey;
            "rate:hour:" +:+ JS.toString (tw_hour timeWindows) +:+ ":" +:+ identityKey;
            "rate:day:" +:+ JS.toString (tw_day timeWindows) +:+ ":" +:+ identityKey] in
         RedisMore.call_del keys
     end)
    (fun e => throw e).

(** [parts.join(sep)] *)
Fixpoint join (sep : string) (parts : list string) : string :=
  match parts with
  | [] => ""
  | [x] => x
  | x :: rest => x +:+ sep +:+ join sep rest
  end.

(** How the loop of [getAllUsers] takes a key apart: nothing for fewer than
    four parts, else the window name and the identity. *)
Definition parseRateKey (key : string) : option (string * string) :=
  let parts := JS.split ":" key in
  if (4 <=? length parts)%nat
  then Some (nth 1 parts "", join ":" (drop 3 parts))
  else None.

(** [getIdentityType] *)
Definition getIdentityType (identityKey : string) : string :=
  if JS.startsWith identityKey "jwt:" then "jwt"
  else if JS.startsWith identityKey "session:" then "session"
  else "ip".

(** A record in both tiers for ["ip:0123456789abcdef"], made at noon. *)
Definition world_verified : World := {|
  w_now := jan31_noon_ms; w_tz := 0; w_env := storeEnv;
  w_fs := FileMissing;
  w_cachedConfig := None; w_configLastModified := 0;
  w_redisClient := false; w_turnstileRedis := true;
  w_redis := {[ "turnstile:verified:ip:0123456789abcdef" :=
                  {| r_value := 1; r_expireAt := Some (jan31_noon_ms + 300000) |} ]};
  w_faults := []; w_trace := [];
  w_verificationCache :=
    {[ "turnstile:verified:ip:0123456789abcdef" :=
         {| vc_token := "tok"; verifiedAt := jan31_noon_ms; vc_action := None |} ]};
|}.

(** What [getVerificationStatus] answers from the in-process map. *)
Definition memory_status (w : World) (identityKey : string) : VerificationStatus :=
  match w_verificationCache w !! getCacheKey identityKey with
  | None => {| vs_verified := false; vs_ttlSeconds := None |}
  | Some cached =>
      let remainMs :=
        (fun d => Z.max 0 (d - (w_now w - verifiedAt cached)))
          <$> cacheDuration (getTurnstileConfig (w_env w)) in
      {| vs_verified := match remainMs with
                        | Some r => 0 <? r
                        | None => false
                        end;
         vs_ttlSeconds := Some ((fun r => r / 1000) <$> remainMs) |}
  end.

(** A stand-in for [decodeURIComponent] that is right on strings without a
    percent sign and, like the real one on a stray [%], throws on all others;
    the rest is as in [standInPlatform]. *)
Definition strictPlatform : Platform := {|
  jwtVerify := @jwtVerify standInPlatform;
  decodeJwt := @decodeJwt standInPlatform;
  sha256_hex := @sha256_hex standInPlatform;
  decodeURIComponent := fun s => if has_char "%" s then None else Some s;
|}.

(** A browser that sends a preference cookie with a stray percent sign
    ahead of its session cookie. *)
Definition strayPercentRequest : NextRequest := {|
  url_pathname := Some "/api/proxy/projects";
  h_Authorization := None;
  h_Cookie := Some "pref=100%; sessionId=abc123";
  h_x_forwarded_for := Some "203.0.113.7";
  h_x_real_ip := None;
  h_cf_connecting_ip := None;
  req_ip := None;
  req_cookies := CookiesUnavailable;
|}.

(** A fresh process with the store configured, whose first round trip to
    the store throws and whose later ones go through. *)
Definition world_store_blip (now : Z) : World := {|
  w_now := now; w_tz := 0; w_env := storeEnv;
  w_fs := FileMissing;
  w_cachedConfig := None; w_configLastModified := 0;
  w_redisClient := false; w_turnstileRedis := false;
  w_redis := ∅; w_faults := [true]; w_trace := [];
  w_verificationCache := ∅;
|}.

(** A process that loaded [customConfig] at mtime 1000; the file has since
    been rewritten with other content but carries the same mtime. *)
Definition world_file_rewritten : World := {|
  w_now := 1706702400000; w_tz := 0; w_env := noEnv;
  w_fs := FilePresent 1000 (Some secretConfig);
  w_cachedConfig := Some customConfig; w_configLastModified := 1000;
  w_redisClient := false; w_turnstileRedis := false;
  w_redis := ∅; w_faults := []; w_trace := [];
  w_verificationCache := ∅;
|}.

(** The same world with another schedule of faults. *)
Definition set_faults_of (w : World) (faults : list bool) : World :=
  {| w_now := w_now w; w_tz := w_tz w; w_env := w_env w; w_fs := w_fs w;
     w_cachedConfig := w_cachedConfig w; w_configLastModified := w_configLastModified w;
     w_redisClient := w_redisClient w; w_turnstileRedis := w_turnstileRedis w;
     w_redis := w_redis w; w_faults := faults; w_trace := w_trace w;
     w_verificationCache := w_verificationCache w |}.
(** * Properties *)

(** ** The helpers on concrete inputs *)

Example split_first_ex : JS.split_first "," "1.2.3.4, 5.6.7.8" = "1.2.3.4".
Proof. reflexivity. Qed.

Example split_ex : JS.split "=" "a=b=c" = ["a"; "b"; "c"].
Proof. reflexivity. Qed.

Example trim_ex : JS.trim "  sessionId=abc " = "sessionId=abc".
Proof. reflexivity. Qed.

Example parseInt_ex :
  JS.parseInt "300" = Some 300 /\ JS.parseInt "abc" = None
  /\ JS.parseInt " -12px" = Some (-12) /\ JS.parseInt "0x1f" = Some 31.
Proof. repeat split; reflexivity. Qed.

Example toString_ex : JS.toString 60 = "60" /\ JS.toString (-43200) = "-43200".
Proof. split; reflexivity. Qed.

(** 19723 days after the epoch is 2024-01-01; 1706702400 is
    2024-01-31T12:00:00Z. *)
Example calendar_ex :
  JS.civil_from_days 19723 = (2024, 1, 1) /\ JS.days_from_civil 2024 1 1 = 19723
  /\ JS.getMonth 0 1706702400000 = 0 /\ JS.firstOfMonth_ms 0 2024 0 = 1704067200000.
Proof. repeat split; reflexivity. Qed.

Example windowStart_ex :
  getWindowStart 0 "minute" 125 = 120 /\ getWindowStart 0 "hour" 7300 = 7200
  /\ getWindowStart 0 "month" 1706702400 = 1704067200
  /\ getWindowStart 3600 "month" 1706702400 = 1704063600.
Proof. repeat split; reflexivity. Qed.

(** ** The configuration loader *)

(** [loadConfig] never throws, and touches only the two variables of the
    configuration cache. *)
Lemma loadConfig_returns (w : World) :
  exists c cc m, loadConfig w = (Ret c, set_config cc m w).
Proof.
  unfold loadConfig, try_catch, ret.
  assert (Hid : set_config (w_cachedConfig w) (w_configLastModified w) w = w)
    by (destruct w; reflexivity).
  destruct (w_fs w) as [|mt [c|]] eqn:Hfs.
  - exists defaultConfig, (w_cachedConfig w), (w_configLastModified w). by rewrite Hid.
  - destruct (w_cachedConfig w) as [c0|] eqn:Hc.
    + destruct (w_configLastModified w <? mt) eqn:Hm.
      * by exists c, (Some c), mt.
      * exists c0, (Some c0), (w_configLastModified w). by rewrite Hid.
    + by exists c, (Some c), mt.
  - destruct (w_cachedConfig w) as [c0|] eqn:Hc.
    + destruct (w_configLastModified w <? mt) eqn:Hm.
      * exists defaultConfig, (Some c0), (w_configLastModified w). by rewrite Hid.
      * exists c0, (Some c0), (w_configLastModified w). by rewrite Hid.
    + exists defaultConfig, None, (w_configLastModified w). by rewrite Hid.
Qed.

(** C4, as stated, fails: with a snapshot loaded and the file gone,
    [loadConfig] does not return the snapshot. *)
Lemma C4_snapshot_not_returned :
  w_cachedConfig world_config_deleted = Some customConfig
  /\ load_fails world_config_deleted = true
  /\ outcome_of loadConfig world_config_deleted = Ret defaultConfig
  /\ outcome_of loadConfig world_config_deleted <> Ret customConfig.
Proof. repeat split; try reflexivity. discriminate. Qed.

(** C4, amended: whenever reading or validating the configuration source
    fails, [loadConfig] returns the hardcoded default, whether or not a
    snapshot was loaded before; it does not throw, and it leaves the world,
    the retained snapshot included, as it was. *)
Theorem C4_load_failure_gives_default (w : World) (Hfail : load_fails w = true) :
  loadConfig w = (Ret defaultConfig, w).
Proof.
  unfold load_fails in Hfail. unfold loadConfig, try_catch, ret.
  destruct (w_fs w) as [|mt [c|]]; [done|done|].
  destruct (w_cachedConfig w); [|done]. by rewrite Hfail.
Qed.

Lemma C4_load_failure_gives_default_witness :
  load_fails world_config_deleted = true
  /\ loadConfig world_config_deleted = (Ret defaultConfig, world_config_deleted).
Proof.
  split; [reflexivity|].
  apply (C4_load_failure_gives_default world_config_deleted). reflexivity.
Defined.

(** ** The verification gate: who must be challenged *)

(** C7: with the gate enabled and the bypass flag set, an identity key of
    kind jwt or session is never asked for a challenge, whatever the
    verification caches hold: [isTurnstileRequired] is false and
    [applyTurnstileVerification] answers without reading any cache. *)
Theorem C7_authenticated_identities_bypass (w : World) (identityKey : string)
  (Henabled : enabled (getTurnstileConfig (w_env w)) = true)
  (Hbypass : bypassAuthenticated (getTurnstileConfig (w_env w)) = true)
  (Hkind : JS.startsWith identityKey "jwt:" = true
           \/ JS.startsWith identityKey "session:" = true) :
  isTurnstileRequired (w_env w) identityKey = false
  /\ applyTurnstileVerification identityKey w = (Ret bypassedAsAuthenticated, w).
Proof.
  assert (Hreq : isTurnstileRequired (w_env w) identityKey = false).
  { unfold isTurnstileRequired. rewrite Henabled, Hbypass. simpl.
    destruct Hkind as [-> | ->]; [done|].
    by destruct (JS.startsWith identityKey "jwt:"). }
  split; [exact Hreq|].
  unfold applyTurnstileVerification, bind, get_world, ret.
  rewrite Henabled, Hreq. simpl.
  destruct Hkind as [-> | ->]; [done|].
  by rewrite orb_true_r.
Qed.

Lemma C7_authenticated_identities_bypass_witness :
  isTurnstileRequired gateEnv "session:abc123" = false
  /\ applyTurnstileVerification "session:abc123" (freshWorld gateEnv 0)
     = (Ret bypassedAsAuthenticated, freshWorld gateEnv 0).
Proof.
  apply (C7_authenticated_identities_bypass (freshWorld gateEnv 0) "session:abc123").
  - reflexivity.
  - reflexivity.
  - right. reflexivity.
Defined.

(** ** Out-of-scope routes *)

Section ScopeFacts.
Context `{Platform}.

(** C8: a request whose path starts with none of the patterns of
    [routesInScope] is allowed with the marker [X-RateLimit-Scope:
    excluded]; no round trip to the store is issued, no client is
    created, and the store, with whatever counters it holds, is left as it
    was. *)
Theorem C8_out_of_scope_skips_the_store (request : NextRequest) (path : string)
    (w : World) (c : Config)
    (Hurl : url_pathname request = Some path)
    (Hcfg : outcome_of getIdentityConfig w = Ret c)
    (Hout : forall route, In route (routesInScope c) ->
                          JS.startsWith path route = false) :
  exists r w',
    applyRateLimit request w = (Ret r, w')
    /\ allowed r = true
    /\ headers r = {["X-RateLimit-Scope" := "excluded"]}
    /\ w_trace w' = w_trace w
    /\ w_redis w' = w_redis w
    /\ w_faults w' = w_faults w
    /\ w_redisClient w' = w_redisClient w.
Proof.
  destruct (loadConfig_returns w) as (c' & cc & m & Hload).
  unfold outcome_of, getIdentityConfig in Hcfg. rewrite Hload in Hcfg.
  simpl in Hcfg. injection Hcfg as ->.
  assert (Hex : existsb (fun route => JS.startsWith path route) (routesInScope c) = false).
  { apply not_true_is_false. intros (route & Hin & Hpre)%existsb_exists.
    rewrite (Hout route Hin) in Hpre. discriminate. }
  unfold applyRateLimit, try_catch, bind, isRouteInScope, getIdentityConfig, bind.
  rewrite Hurl. simpl. rewrite Hload. unfold ret at 1. rewrite Hex. simpl.
  eexists _, _. split; [reflexivity|]. by repeat split.
Qed.

End ScopeFacts.

(** The default configuration is in force (no file), the store holds
    nothing, and the path is outside the two default patterns. *)
Lemma C8_out_of_scope_skips_the_store_witness :
  exists r w',
    @applyRateLimit brokenPlatform (bareRequest "/api/health") (freshWorld noEnv 0)
      = (Ret r, w')
    /\ allowed r = true
    /\ headers r = {["X-RateLimit-Scope" := "excluded"]}
    /\ w_trace w' = w_trace (freshWorld noEnv 0)
    /\ w_redis w' = w_redis (freshWorld noEnv 0)
    /\ w_faults w' = w_faults (freshWorld noEnv 0)
    /\ w_redisClient w' = w_redisClient (freshWorld noEnv 0).
Proof.
  apply (@C8_out_of_scope_skips_the_store brokenPlatform (bareRequest "/api/health")
           "/api/health" (freshWorld noEnv 0) defaultConfig).
  - reflexivity.
  - reflexivity.
  - intros route Hin. simpl in Hin.
    destruct Hin as [<- | [<- | []]]; reflexivity.
Defined.

(** ** The identity waterfall *)

Section IdentityFacts.
Context `{Platform}.

(** A computation whose handler returns cannot throw. *)
Lemma try_catch_returns {A} (m : M A) (a : A) (w : World) :
  exists r w', try_catch m (fun _ => ret a) w = (Ret r, w').
Proof.
  unfold try_catch. destruct (m w) as [[r|e] w']; [by exists r, w'|by exists a, w'].
Qed.

Lemma extractJwtSubject_returns (request : NextRequest) (w : World) :
  exists r w', extractJwtSubject request w = (Ret r, w').
Proof. apply try_catch_returns. Qed.

(** One turn of the loop returns, and what it returns tells the method. *)
Lemma tryMethod_returns (request : NextRequest) (method : Strategy) (w : World) :
  exists r w',
    tryMethod request method w = (Ret r, w')
    /\ match r with
       | None => method <> Ip
       | Some key =>
           match method with
           | JwtSub => exists s, key = "jwt:" +:+ s
           | SessionCookie => exists s, key = "session:" +:+ s
           | Ip => key = "ip:" +:+ extractHashedIp request /\ w' = w
           end
       end.
Proof.
  destruct method; unfold tryMethod, try_catch, bind.
  - destruct (extractJwtSubject_returns request w) as (r & w' & ->).
    destruct r as [s|]; [destruct (JS.truthy s)|]; eexists _, _;
      (split; [reflexivity|]); simpl; eauto.
  - destruct (extractSessionId request) as [s|]; [destruct (JS.truthy s)|];
      eexists _, _; (split; [reflexivity|]); simpl; eauto.
  - eexists _, _. split; [reflexivity|]. by simpl.
Qed.

Lemma identityWaterfall_with_ip (request : NextRequest) (order : list Strategy) :
  In Ip order ->
  forall w, exists key w',
    identityWaterfall request order w = (Ret key, w')
    /\ ((exists s, key = "jwt:" +:+ s) \/ (exists s, key = "session:" +:+ s)
        \/ key = "ip:" +:+ extractHashedIp request).
Proof.
  induction order as [|method rest IH]; intros Hin w; [destruct Hin|].
  simpl. unfold bind.
  destruct (tryMethod_returns request method w) as (r & w1 & -> & Hr).
  destruct r as [key|].
  - exists key, w1. split; [reflexivity|].
    destruct method; [by left|by (right; left)|by (right; right; destruct Hr)].
  - destruct Hin as [-> | Hin]; [done|]. apply (IH Hin).
Qed.

(** C10: with the ip strategy in the configured order, resolution returns
    a key of one of the three kinds and never the anonymous fallback; the
    ip strategy itself always yields a key and leaves the world alone; when
    hashing the address throws that key is the fixed ["ip:unknown"], so
    that all callers on this path share one key and one set of counters. *)
Theorem C10_ip_strategy_never_anonymous (request : NextRequest) (w : World) (c : Config)
    (Hcfg : outcome_of loadConfig w = Ret c)
    (Hip : In Ip (identityOrder c)) :
  (exists key w',
      getIdentityKey request w = (Ret key, w')
      /\ key <> "anonymous"
      /\ ((exists s, key = "jwt:" +:+ s) \/ (exists s, key = "session:" +:+ s)
          \/ key = "ip:" +:+ extractHashedIp request))
  /\ (forall w1, tryMethod request Ip w1
                 = (Ret (Some ("ip:" +:+ extractHashedIp request)), w1))
  /\ (sha256_hex (clientIp request) = None ->
      "ip:" +:+ extractHashedIp request = "ip:unknown"
      /\ forall request' window windowStart,
          sha256_hex (clientIp request') = None ->
          generateRedisKey ("ip:" +:+ extractHashedIp request') window windowStart
          = generateRedisKey ("ip:" +:+ extractHashedIp request) window windowStart).
Proof.
  split; [|split].
  - destruct (loadConfig_returns w) as (c' & cc & m & Hload).
    unfold outcome_of in Hcfg. rewrite Hload in Hcfg. simpl in Hcfg.
    injection Hcfg as ->.
    unfold getIdentityKey, bind. rewrite Hload.
    destruct (identityWaterfall_with_ip request _ Hip (set_config cc m w))
      as (key & w' & -> & Hkind).
    exists key, w'. split; [reflexivity|]. split; [|exact Hkind].
    destruct Hkind as [[s ->] | [[s ->] | ->]]; discriminate.
  - intros w1. reflexivity.
  - intros Herr. unfold extractHashedIp. rewrite Herr. split; [reflexivity|].
    intros request' window windowStart ->. reflexivity.
Qed.

End IdentityFacts.

(** Hashing throws, the default order ends with the ip strategy: the key is
    ["ip:unknown"]. *)
Lemma C10_ip_strategy_never_anonymous_witness :
  In Ip (identityOrder defaultConfig)
  /\ exists key w',
      @getIdentityKey brokenPlatform (bareRequest "/api/proxy/user") (freshWorld noEnv 0)
      = (Ret key, w')
      /\ key <> "anonymous"
      /\ ((exists s, key = "jwt:" +:+ s) \/ (exists s, key = "session:" +:+ s)
          \/ key = "ip:" +:+ @extractHashedIp brokenPlatform (bareRequest "/api/proxy/user")).
Proof.
  assert (Hip : In Ip (identityOrder defaultConfig)) by (simpl; auto).
  split; [exact Hip|].
  apply (@C10_ip_strategy_never_anonymous brokenPlatform
           (bareRequest "/api/proxy/user") (freshWorld noEnv 0) defaultConfig).
  - reflexivity.
  - exact Hip.
Defined.

Example getIdentityKey_unknown_ex :
  @getIdentityKey brokenPlatform (bareRequest "/api/proxy/user") (freshWorld noEnv 0)
  = (Ret "ip:unknown", freshWorld noEnv 0).
Proof. reflexivity. Qed.

(** ** The verification cache *)

Lemma getTurnstileRedis_run (w : World) :
  getTurnstileRedis w
  = (Ret (redis_configured (w_env w)),
     if redis_configured (w_env w) then set_turnstileRedis true w else w).
Proof.
  unfold getTurnstileRedis, redis_configured.
  destruct (UPSTASH_REDIS_REST_URL (w_env w)) as [url|]; [|done].
  destruct (UPSTASH_REDIS_REST_TOKEN (w_env w)) as [token|]; [|done].
  by destruct (JS.truthy url && JS.truthy token).
Qed.

(** The answer of the cache check: the store's yes, or else the map's. *)
Lemma hasValidCachedVerification_outcome (identityKey : string) (w : World) :
  outcome_of (hasValidCachedVerification identityKey) w
  = Ret (store_reports w identityKey || memory_reports w identityKey).
Proof.
  unfold outcome_of, hasValidCachedVerification, bind, try_catch, get_world.
  rewrite getTurnstileRedis_run.
  unfold store_reports, memory_reports, next_fault.
  destruct (redis_configured (w_env w)) eqn:Hconf; simpl.
  - unfold Redis.call_exists, Redis.roundtrip, bind, ret. simpl.
    destruct (w_faults w) as [|[|] fs] eqn:Hf; simpl;
      try destruct (Redis.exists_ _ _ _ =? 1); simpl; try reflexivity;
      destruct (w_verificationCache w !! getCacheKey identityKey) as [cached|];
      simpl; try reflexivity;
      by destruct (lt_num _ _).
  - unfold ret.
    destruct (w_verificationCache w !! getCacheKey identityKey) as [cached|];
      simpl; try reflexivity.
    by destruct (lt_num _ _).
Qed.

(** A yes of the store answers the check without touching the map. *)
Lemma hasValidCachedVerification_store_yes (identityKey : string) (w : World) :
  store_reports w identityKey = true ->
  w_verificationCache (world_after (hasValidCachedVerification identityKey) w)
  = w_verificationCache w.
Proof.
  unfold store_reports, next_fault. intros [[Hconf Hf]%andb_prop Hex]%andb_prop.
  unfold world_after, hasValidCachedVerification, bind, try_catch, get_world.
  rewrite getTurnstileRedis_run, Hconf.
  unfold Redis.call_exists, Redis.roundtrip, bind, ret. simpl.
  destruct (w_faults w) as [|[|] fs]; simpl in *; try discriminate;
    by rewrite Hex.
Qed.

(** C6 at the failing input.  The store is configured and reachable (the
    EXISTS round trip goes through) and reports no record for the identity;
    the check then goes on to the in-process map and answers yes from it.  The
    code's own comments call the store authoritative and the map a fallback
    for when the store cannot be reached. *)
Lemma C6_map_overrides_reachable_store :
  redis_configured (w_env world_memory_only) = true
  /\ next_fault world_memory_only = false
  /\ Redis.exists_ (w_now world_memory_only) (w_redis world_memory_only)
       (getCacheKey "ip:0123456789abcdef") = 0
  /\ w_trace (world_after (hasValidCachedVerification "ip:0123456789abcdef")
                world_memory_only)
     = [CallExists "turnstile:verified:ip:0123456789abcdef"]
  /\ outcome_of (hasValidCachedVerification "ip:0123456789abcdef") world_memory_only
     = Ret true.
Proof. repeat split; vm_compute; reflexivity. Qed.

(** The state of [world_memory_only] is reached by a verification recorded
    while the store was down (the SET throws and is swallowed) and checked one
    second later, with the store back: the store says no, the check says
    yes. *)
Example C6_failing_state_is_reachable :
  let recorded :=
    world_after (cacheVerification "ip:0123456789abcdef" "tok" None)
      (world_store_blip 1706702399000) in
  w_redis recorded = ∅
  /\ next_fault (set_now 1706702400000 recorded) = false
  /\ w_trace (world_after (hasValidCachedVerification "ip:0123456789abcdef")
                (set_now 1706702400000 recorded))
     = [CallSetEx "turnstile:verified:ip:0123456789abcdef" 1 (Some 300);
        CallExists "turnstile:verified:ip:0123456789abcdef"]
  /\ outcome_of (hasValidCachedVerification "ip:0123456789abcdef")
       (set_now 1706702400000 recorded)
     = Ret true.
Proof. repeat split; vm_compute; reflexivity. Qed.

(** The configured cache duration is a whole number of seconds. *)
Lemma cacheDuration_whole_seconds (env : Env) (d : Z) :
  cacheDuration (getTurnstileConfig env) = Some d -> exists n, d = n * 1000.
Proof.
  unfold getTurnstileConfig. simpl.
  destruct (JS.parseInt _) as [n|]; simpl; [|discriminate].
  intros [= <-]. by exists n.
Qed.

(** What [cacheVerification] leaves behind: a record in the map stamped
    with the current instant, and in the store either a key that expires
    when the cache duration has elapsed, or the key as it was. *)
Lemma cacheVerification_run (identityKey token : string) (action : option string)
    (w : World) (d : Z) :
  cacheDuration (getTurnstileConfig (w_env w)) = Some d -> 0 < d ->
  let w1 := world_after (cacheVerification identityKey token action) w in
  outcome_of (cacheVerification identityKey token action) w = Ret tt
  /\ w_env w1 = w_env w /\ w_now w1 = w_now w
  /\ w_verificationCache w1 !! getCacheKey identityKey
     = Some {| vc_token := token; verifiedAt := w_now w; vc_action := action |}
  /\ (w_redis w1 !! getCacheKey identityKey
      = Some {| r_value := 1; r_expireAt := Some (w_now w + d) |}
      \/ w_redis w1 = w_redis w).
Proof.
  intros Hd Hpos.
  destruct (cacheDuration_whole_seconds _ _ Hd) as [n ->].
  assert (Httl : Z.max 1 (n * 1000 / 1000) = n).
  { rewrite Z.div_mul by lia. lia. }
  unfold world_after, outcome_of, cacheVerification, bind, try_catch, get_world.
  rewrite getTurnstileRedis_run.
  destruct (redis_configured (w_env w)) eqn:Hconf.
  - unfold Redis.call_set_ex, Redis.roundtrip, ttlSeconds. rewrite Hd. simpl.
    rewrite Httl.
    assert (Hn : (0 <? n) = true) by (apply Z.ltb_lt; lia). rewrite Hn.
    destruct (w_faults w) as [|[|] fs]; simpl;
      (repeat split; [by rewrite lookup_insert_eq|]);
      first [ by (left; unfold Redis.set_ex; rewrite lookup_insert_eq) | by right ].
  - unfold ret. simpl. repeat split; [by rewrite lookup_insert_eq|by right].
Qed.

(** C9: after [cacheVerification] the identity is verified, at once and
    for as long as the cache duration has not elapsed; once it has elapsed
    the identity is no longer verified.  The duration is positive, and any
    older record the store may hold for the identity does not outlive the
    new one. *)
Theorem C9_record_then_verified_until_ttl (w : World) (identityKey token : string)
    (action : option string) (d : Z)
    (Hd : cacheDuration (getTurnstileConfig (w_env w)) = Some d)
    (Hpos : 0 < d)
    (Hprior : forall e, w_redis w !! getCacheKey identityKey = Some e ->
                        exists x, r_expireAt e = Some x /\ x <= w_now w + d) :
  outcome_of (cacheVerification identityKey token action) w = Ret tt
  /\ outcome_of (isIdentityVerified identityKey)
       (world_after (cacheVerification identityKey token action) w) = Ret true
  /\ (forall t, w_now w <= t < w_now w + d ->
        outcome_of (isIdentityVerified identityKey)
          (set_now t (world_after (cacheVerification identityKey token action) w))
        = Ret true)
  /\ (forall t, w_now w + d <= t ->
        outcome_of (isIdentityVerified identityKey)
          (set_now t (world_after (cacheVerification identityKey token action) w))
        = Ret false).
Proof.
  destruct (cacheVerification_run identityKey token action w d Hd Hpos)
    as (Hret & Henv & Hnow & Hmem & Hstore).
  set (w1 := world_after (cacheVerification identityKey token action) w) in *.
  assert (Hfresh : forall t, w_now w <= t < w_now w + d ->
                             memory_reports (set_now t w1) identityKey = true).
  { intros t Ht. unfold memory_reports, set_now.
    cbn [w_verificationCache w_env w_now]. rewrite Hmem, Henv, Hd. simpl.
    apply Z.ltb_lt. lia. }
  split; [exact Hret|]. unfold isIdentityVerified. split; [|split].
  - rewrite hasValidCachedVerification_outcome.
    assert (Hm : memory_reports w1 identityKey = true).
    { unfold memory_reports. rewrite Hmem, Henv, Hd, Hnow. simpl.
      apply Z.ltb_lt. lia. }
    by rewrite Hm, orb_true_r.
  - intros t Ht. rewrite hasValidCachedVerification_outcome.
    by rewrite (Hfresh t Ht), orb_true_r.
  - intros t Ht. rewrite hasValidCachedVerification_outcome.
    assert (Hm : memory_reports (set_now t w1) identityKey = false).
    { unfold memory_reports, set_now.
      cbn [w_verificationCache w_env w_now]. rewrite Hmem, Henv, Hd. simpl.
      apply Z.ltb_ge. lia. }
    assert (Hs : Redis.exists_ t (w_redis w1) (getCacheKey identityKey) = 0).
    { unfold Redis.exists_, Redis.lookup, Redis.live.
      destruct Hstore as [-> | ->].
      - simpl. assert (Hlt : (t <? w_now w + d) = false) by (apply Z.ltb_ge; lia).
        by rewrite Hlt.
      - destruct (w_redis w !! getCacheKey identityKey) as [e|] eqn:He; [|done].
        destruct (Hprior e eq_refl) as (x & -> & Hx).
        assert (Hlt : (t <? x) = false) by (apply Z.ltb_ge; lia).
        by rewrite Hlt. }
    unfold store_reports. simpl. rewrite Hs, Hm. simpl.
    by rewrite andb_false_r.
Qed.

Lemma C9_record_then_verified_until_ttl_witness :
  outcome_of (cacheVerification "ip:0123456789abcdef" "tok" None)
    (freshWorld storeEnv 1706702400000) = Ret tt
  /\ outcome_of (isIdentityVerified "ip:0123456789abcdef")
       (world_after (cacheVerification "ip:0123456789abcdef" "tok" None)
          (freshWorld storeEnv 1706702400000)) = Ret true
  /\ (forall t, 1706702400000 <= t < 1706702400000 + 300000 ->
        outcome_of (isIdentityVerified "ip:0123456789abcdef")
          (set_now t (world_after (cacheVerification "ip:0123456789abcdef" "tok" None)
                        (freshWorld storeEnv 1706702400000)))
        = Ret true)
  /\ (forall t, 1706702400000 + 300000 <= t ->
        outcome_of (isIdentityVerified "ip:0123456789abcdef")
          (set_now t (world_after (cacheVerification "ip:0123456789abcdef" "tok" None)
                        (freshWorld storeEnv 1706702400000)))
        = Ret false).
Proof.
  apply (C9_record_then_verified_until_ttl (freshWorld storeEnv 1706702400000)
           "ip:0123456789abcdef" "tok" None 300000).
  - reflexivity.
  - lia.
  - intros e He. simpl in He. rewrite lookup_empty in He. discriminate.
Defined.

(** ** The jwt-sub strategy *)

Section JwtFacts.
Context `{Platform}.

(** With a secret configured, a token that fails verification is decoded
    all the same, and its subject is returned. *)
Lemma extractJwtSubject_unverified_fallback (request : NextRequest) (w : World)
    (c : Config) (authHeader secret s : string) :
  h_Authorization request = Some authHeader ->
  JS.truthy authHeader = true ->
  JS.startsWith authHeader "Bearer " = true ->
  outcome_of loadConfig w = Ret c ->
  jwtSecret c = Some secret ->
  JS.truthy secret = true ->
  jwtVerify (JS.drop 7 authHeader) secret = None ->
  decodeJwt (JS.drop 7 authHeader) = Some {| sub := Some s |} ->
  JS.truthy s = true ->
  outcome_of (extractJwtSubject request) w = Ret (Some s).
Proof.
  intros Hauth Htr Hpre Hcfg Hsec Hts Hver Hdec Hs.
  destruct (loadConfig_returns w) as (c' & cc & m & Hload).
  unfold outcome_of in Hcfg. rewrite Hload in Hcfg. simpl in Hcfg.
  injection Hcfg as ->.
  unfold outcome_of, extractJwtSubject, try_catch, bind.
  rewrite Hauth, Htr, Hpre. cbn [negb orb]. rewrite Hload. cbn beta iota.
  rewrite Hsec, Hts. unfold lift_throw. rewrite Hver, Hdec.
  unfold throw, ret. cbn [sub]. unfold or_null, JS.or_else. by rewrite Hs.
Qed.

End JwtFacts.

(** C3 at the failing input: the secret ["s3cret"] is configured, the
    token does not verify against it, and the caller is identified as
    [jwt:user123] from the unverified payload. *)
Theorem C3_unverified_subject_trusted_despite_secret :
  jwtSecret secretConfig = Some "s3cret"
  /\ outcome_of loadConfig world_with_secret = Ret secretConfig
  /\ @jwtVerify standInPlatform "user123.attacker-key" "s3cret" = None
  /\ outcome_of (@extractJwtSubject standInPlatform forgedRequest) world_with_secret
     = Ret (Some "user123")
  /\ outcome_of (@getIdentityKey standInPlatform forgedRequest) world_with_secret
     = Ret "jwt:user123".
Proof. repeat split; reflexivity. Qed.

(** ** One window check *)

Lemma getRedisClient_run (w : World) :
  client_available w = true ->
  getRedisClient w = (Ret tt, set_redisClient true w).
Proof.
  unfold client_available, getRedisClient, redis_configured.
  destruct (w_redisClient w) eqn:Hc.
  - intros _. f_equal. destruct w; simpl in *; by subst.
  - simpl. destruct (UPSTASH_REDIS_REST_URL (w_env w)) as [url|]; [|done].
    destruct (UPSTASH_REDIS_REST_TOKEN (w_env w)) as [token|]; [|done].
    by intros ->.
Qed.

(** With a client at hand, a window check is one pipeline: it either
    throws, which gives the degraded answer, or answers the incremented
    count. *)
Lemma checkWindowLimit_run (identityKey window : string) (limit : Z) (path : string)
    (w : World) :
  client_available w = true ->
  let timestamp := w_now w / 1000 in
  let windowStart := getWindowStart (w_tz w) window timestamp in
  let resetTime := getResetTime window windowStart in
  let redisKey := generateRedisKey identityKey window windowStart in
  let call := PipelineIncrExpire redisKey (resetTime - timestamp) in
  checkWindowLimit identityKey window limit path w
  = if next_fault w
    then (Ret (degradedResult window limit timestamp),
          set_roundtrip call (w_redis w) (set_redisClient true w))
    else (Ret (countedResult window limit resetTime timestamp
                 (Redis.incr (w_now w) (w_redis w) redisKey).1),
          set_roundtrip call
            (Redis.expire (w_now w) (Redis.incr (w_now w) (w_redis w) redisKey).2
               redisKey (resetTime - timestamp))
            (set_redisClient true w)).
Proof.
  intros Hc. cbv zeta.
  unfold checkWindowLimit, bind. rewrite (getRedisClient_run w Hc).
  unfold getCurrentTimestamp, get_world, try_catch, bind,
    Redis.pipeline_incr_expire, Redis.roundtrip, next_fault.
  cbn [w_now w_tz w_redis w_faults set_redisClient].
  destruct (Redis.incr (w_now w) (w_redis w) _) as [count st1] eqn:Hincr.
  destruct (w_faults w) as [|[|] fs]; reflexivity.
Qed.

(** The start of an aligned window, and the seconds left in it. *)
Lemma aligned_window_start (tz : Z) (window : string) (timestamp : Z) :
  aligned_window window -> 0 <= timestamp ->
  getWindowStart tz window timestamp = timestamp - timestamp mod ttlMap window
  /\ 0 <= timestamp mod ttlMap window < ttlMap window
  /\ 60 <= ttlMap window.
Proof.
  intros [-> | [-> | ->]] Hts; unfold getWindowStart, ttlMap;
    simpl String.eqb; cbv iota;
    (rewrite Z.rem_mod_nonneg by lia); (split; [reflexivity|]);
    (split; [apply Z.mod_pos_bound|]); lia.
Qed.

(** INCR followed by EXPIRE with a positive timeout leaves the key with the
    incremented count and the new expiry instant. *)
Lemma incr_then_expire (now : Z) (st : gmap string RedisEntry) (k : string) (s : Z) :
  0 < s ->
  Redis.expire now (Redis.incr now st k).2 k s
  = <[k := {| r_value := (Redis.incr now st k).1;
              r_expireAt := Some (now + s * 1000) |}]> st.
Proof.
  intros Hs. assert (Hle : (s <=? 0) = false) by (apply Z.leb_gt; lia).
  unfold Redis.incr, Redis.expire.
  destruct (Redis.lookup now st k) as [e|] eqn:Hl; simpl.
  - unfold Redis.lookup in *. rewrite lookup_insert_eq.
    destruct (st !! k) as [e0|]; [|done].
    unfold Redis.live in *. simpl.
    destruct (r_expireAt e0) as [t|] eqn:He0.
    + destruct (now <? t) eqn:Hlive; [|done]. injection Hl as <-.
      rewrite He0, Hlive, Hle. simpl. by rewrite insert_insert_eq.
    + injection Hl as <-. rewrite He0, Hle. simpl. by rewrite insert_insert_eq.
  - unfold Redis.lookup. rewrite lookup_insert_eq. simpl.
    rewrite Hle. by rewrite insert_insert_eq.
Qed.

(** C5, as stated, fails: thirty seconds into the minute the counter is
    given thirty seconds to live, not the sixty of the window. *)
Lemma C5_ttl_half_way_through_minute :
  ttlMap "minute" = 60
  /\ w_trace (world_after
                (checkWindowLimit "ip:0123456789abcdef" "minute" 10 "/api/proxy/projects")
                (freshWorld storeEnv 1706702430000))
     = [PipelineIncrExpire "rate:minute:1706702400:ip:0123456789abcdef" 30]
  /\ w_redis (world_after
                (checkWindowLimit "ip:0123456789abcdef" "minute" 10 "/api/proxy/projects")
                (freshWorld storeEnv 1706702430000))
     !! "rate:minute:1706702400:ip:0123456789abcdef"
     = Some {| r_value := 1; r_expireAt := Some (1706702430000 + 30 * 1000) |}.
Proof. repeat split; vm_compute; reflexivity. Qed.

(** C5, amended: for the minute, hour and day windows every increment is
    sent in one pipeline with an EXPIRE of [resetTime - now] seconds, the
    time left until the window ends: between 1 and the window's duration,
    and the full duration only for an increment at the very start of the
    window.  When the pipeline goes through, the counter expires that many
    seconds after the increment. *)
Theorem C5_ttl_is_time_left_in_window (identityKey window : string) (limit : Z)
    (path : string) (w : World)
    (Hwindow : aligned_window window)
    (Hnow : 0 <= w_now w)
    (Hclient : client_available w = true) :
  let timestamp := w_now w / 1000 in
  let ttl := ttlMap window - timestamp mod ttlMap window in
  let redisKey := generateRedisKey identityKey window (getWindowStart (w_tz w) window timestamp) in
  let w' := world_after (checkWindowLimit identityKey window limit path) w in
  w_trace w' = (w_trace w ++ [PipelineIncrExpire redisKey ttl])%list
  /\ ttl = getResetTime window (getWindowStart (w_tz w) window timestamp) - timestamp
  /\ 1 <= ttl <= ttlMap window
  /\ (ttl = ttlMap window <-> timestamp mod ttlMap window = 0)
  /\ (next_fault w = false ->
      exists count, w_redis w' !! redisKey
                    = Some {| r_value := count;
                              r_expireAt := Some (w_now w + ttl * 1000) |}).
Proof.
  cbv zeta.
  assert (Hts : 0 <= w_now w / 1000) by (apply Z.div_pos; lia).
  destruct (aligned_window_start (w_tz w) window _ Hwindow Hts) as (Hstart & Hmod & Hdur).
  assert (Httl : getResetTime window (getWindowStart (w_tz w) window (w_now w / 1000))
                 - w_now w / 1000
                 = ttlMap window - (w_now w / 1000) mod ttlMap window).
  { unfold getResetTime. rewrite Hstart. lia. }
  unfold world_after.
  rewrite (checkWindowLimit_run identityKey window limit path w Hclient).
  rewrite Httl.
  split; [by destruct (next_fault w)|].
  split; [done|]. split; [lia|]. split; [lia|].
  intros ->. simpl. rewrite incr_then_expire by lia.
  eexists. apply lookup_insert_eq.
Qed.

Lemma C5_ttl_is_time_left_in_window_witness :
  let w := freshWorld storeEnv 1706702430000 in
  let w' := world_after
              (checkWindowLimit "ip:0123456789abcdef" "minute" 10 "/api/proxy/projects") w in
  let redisKey := generateRedisKey "ip:0123456789abcdef" "minute"
                    (getWindowStart 0 "minute" (1706702430000 / 1000)) in
  let ttl := ttlMap "minute" - (1706702430000 / 1000) mod ttlMap "minute" in
  w_trace w' = (w_trace w ++ [PipelineIncrExpire redisKey ttl])%list
  /\ ttl = getResetTime "minute" (getWindowStart 0 "minute" (1706702430000 / 1000))
           - 1706702430000 / 1000
  /\ 1 <= ttl <= ttlMap "minute"
  /\ (ttl = ttlMap "minute" <-> (1706702430000 / 1000) mod ttlMap "minute" = 0)
  /\ (next_fault w = false ->
      exists count, w_redis w' !! redisKey
                    = Some {| r_value := count;
                              r_expireAt := Some (1706702430000 + ttl * 1000) |}).
Proof.
  apply (C5_ttl_is_time_left_in_window "ip:0123456789abcdef" "minute" 10
           "/api/proxy/projects" (freshWorld storeEnv 1706702430000)).
  - left. reflexivity.
  - simpl. lia.
  - reflexivity.
Defined.

(** ** Counting requests within one window *)

Lemma no_faults_next (w : World) : no_faults w -> next_fault w = false.
Proof.
  unfold no_faults, next_fault. destruct (w_faults w) as [|[|] fs]; try done.
  intros Hf. by inversion Hf.
Qed.

(** One request against an aligned window whose counter stands at [c]:
    the pipeline answers [c + 1], and the counter stands at [c + 1]
    afterwards, alive until the window ends. *)
Lemma checkWindowLimit_step (identityKey window : string) (limit : Z) (path : string)
    (w : World) (c : Z) :
  aligned_window window -> 0 <= w_now w ->
  client_available w = true -> no_faults w ->
  let timestamp := w_now w / 1000 in
  let windowStart := getWindowStart (w_tz w) window timestamp in
  let resetTime := getResetTime window windowStart in
  let redisKey := generateRedisKey identityKey window windowStart in
  counter_at w redisKey c (resetTime * 1000) ->
  exists w',
    checkWindowLimit identityKey window limit path w
    = (Ret (countedResult window limit resetTime timestamp (c + 1)), w')
    /\ counter_at w' redisKey (c + 1) (resetTime * 1000)
    /\ client_available w' = true /\ no_faults w' /\ w_tz w' = w_tz w
    /\ 0 < resetTime - timestamp.
Proof.
  intros Hwin Hnow Hc Hnf. cbv zeta. intros Hcount.
  assert (Hts : 0 <= w_now w / 1000) by (apply Z.div_pos; lia).
  destruct (aligned_window_start (w_tz w) window _ Hwin Hts) as (Hstart & Hmod & Hdur).
  set (ts := w_now w / 1000) in *.
  set (ws := getWindowStart (w_tz w) window ts) in *.
  set (key := generateRedisKey identityKey window ws) in *.
  assert (Hleft : 0 < getResetTime window ws - ts) by (unfold getResetTime; lia).
  assert (Hbefore : w_now w < getResetTime window ws * 1000).
  { assert (w_now w < (ts + 1) * 1000); [|lia].
    unfold ts. pose proof (Z.mod_pos_bound (w_now w) 1000).
    pose proof (Z.div_mod (w_now w) 1000). lia. }
  assert (Hone : (Redis.incr (w_now w) (w_redis w) key).1 = c + 1).
  { unfold Redis.incr, Redis.lookup.
    destruct Hcount as [[-> ->] | (e & -> & He)]; [done|].
    unfold Redis.live. simpl.
    assert (Hl : (w_now w <? e) = true) by (apply Z.ltb_lt; lia).
    by rewrite Hl. }
  rewrite (checkWindowLimit_run identityKey window limit path w Hc).
  rewrite (no_faults_next w Hnf).
  fold ts. fold ws. fold key. rewrite incr_then_expire by lia. rewrite Hone.
  eexists. split; [reflexivity|]. split; [|split; [|split; [|split]]].
  - right. eexists. simpl. rewrite lookup_insert_eq. split; [reflexivity|].
    unfold ts. pose proof (Z.mod_pos_bound (w_now w) 1000).
    pose proof (Z.div_mod (w_now w) 1000). fold ts in H0. lia.
  - reflexivity.
  - unfold no_faults in *. simpl. destruct (w_faults w); [done|]. by inversion Hnf.
  - reflexivity.
  - exact Hleft.
Qed.

(** Requests one after the other in one aligned window: the request after
    [c + k] earlier ones is answered with the count [c + k + 1]. *)
Lemma checkAt_counts (identityKey window : string) (limit : Z) (path : string)
    (windowStart : Z) (times : list Z) :
  aligned_window window ->
  forall (w : World) (c : Z),
    client_available w = true -> no_faults w ->
    Forall (fun t => 0 <= t
                     /\ getWindowStart (w_tz w) window (t / 1000) = windowStart) times ->
    counter_at w (generateRedisKey identityKey window windowStart) c
      (getResetTime window windowStart * 1000) ->
    (checkAt identityKey window limit path times w).1
    = imap (fun k t => Ret (countedResult window limit (getResetTime window windowStart)
                              (t / 1000) (c + Z.of_nat k + 1))) times.
Proof.
  intros Hwin. induction times as [|t rest IH]; intros w c Hc Hnf Hall Hcount; [done|].
  apply Forall_cons in Hall as [[Ht Hws] Hrest].
  destruct (checkWindowLimit_step identityKey window limit path (set_now t w) c)
    as (w1 & Hrun & Hcount1 & Hc1 & Hnf1 & Htz & _); try done.
  { cbn [set_now w_now w_tz]. by rewrite Hws. }
  cbn [set_now w_now w_tz] in Hrun, Hcount1, Htz. rewrite Hws in Hrun, Hcount1.
  simpl checkAt. rewrite Hrun.
  specialize (IH w1 (c + 1) Hc1 Hnf1).
  destruct (checkAt identityKey window limit path rest w1) as [rs w2].
  simpl in *. rewrite IH; [| by rewrite Htz |done].
  f_equal; [do 2 f_equal; lia|].
  apply imap_ext. intros k t' _. simpl. do 2 f_equal. lia.
Qed.

(** Within a minute, hour or day window, starting from a fresh counter and
    with the store answering: request number [k + 1] is allowed with
    [remaining = N - (k + 1)] as long as [k + 1 <= N], and denied with
    [remaining = 0] and a positive [Retry-After] of [resetTime - now]
    afterwards. *)
Lemma aligned_window_enforces_limit (identityKey window : string) (N : Z) (path : string)
    (windowStart : Z) (times : list Z) (w : World) (k : nat) (t : Z) :
  aligned_window window ->
  client_available w = true -> no_faults w ->
  Forall (fun t => 0 <= t
                   /\ getWindowStart (w_tz w) window (t / 1000) = windowStart) times ->
  w_redis w !! generateRedisKey identityKey window windowStart = None ->
  times !! k = Some t ->
  let count := Z.of_nat k + 1 in
  let retryAfter := getResetTime window windowStart - t / 1000 in
  exists r,
    (checkAt identityKey window N path times w).1 !! k = Some (Ret r)
    /\ resetTime r = getResetTime window windowStart
    /\ 0 < retryAfter
    /\ (count <= N -> allowed r = true /\ remaining r = N - count
                      /\ headers r !! "Retry-After" = None)
    /\ (N < count -> allowed r = false /\ remaining r = 0
                     /\ headers r !! "Retry-After" = Some (JS.toString retryAfter)).
Proof.
  intros Hwin Hc Hnf Hall Hfresh Hk. cbv zeta.
  rewrite (checkAt_counts identityKey window N path windowStart times Hwin w 0 Hc Hnf Hall)
    by (left; done).
  rewrite list_lookup_imap, Hk. simpl. eexists. split; [reflexivity|].
  split; [reflexivity|].
  assert (Hpos : 0 < getResetTime window windowStart - t / 1000).
  { apply list_elem_of_lookup_2 in Hk.
    rewrite Forall_forall in Hall. destruct (Hall t Hk) as [Ht Hws].
    assert (Hts : 0 <= t / 1000) by (apply Z.div_pos; lia).
    destruct (aligned_window_start (w_tz w) window _ Hwin Hts) as (Hstart & Hmod & _).
    unfold getResetTime. lia. }
  split; [exact Hpos|]. unfold countedResult. simpl. split; intros Hcmp.
  - assert (Hle : (0 + Z.of_nat k + 1 <=? N) = true) by (apply Z.leb_le; lia).
    rewrite Hle. split; [done|]. split; [lia|done].
  - assert (Hle : (0 + Z.of_nat k + 1 <=? N) = false) by (apply Z.leb_gt; lia).
    rewrite Hle. split; [done|]. split; [lia|]. by rewrite lookup_insert_eq.
Qed.

(** ** The month window *)

(** C1 at the failing input.  The month window starts with the calendar
    month but is given 30 days: on the 31st its reset time lies in the past,
    the EXPIRE of the pipeline gets a negative timeout and deletes the counter
    that was just incremented.  With a limit of 2, the third request of the
    same window, like every other, is answered with count 1: allowed, one
    remaining. *)
Theorem C1_month_window_never_trips_on_day_31 :
  getWindowStart 0 "month" jan31_noon = 1704067200
  /\ getWindowStart 0 "month" (jan31_noon + 2) = 1704067200
  /\ getResetTime "month" 1704067200 - jan31_noon = -43200
  /\ map verdict
       (checkAt "ip:0123456789abcdef" "month" 2 "/api/proxy/projects"
          [jan31_noon_ms; jan31_noon_ms + 1000; jan31_noon_ms + 2000]
          (freshWorld storeEnv jan31_noon_ms)).1
     = [Some (true, 1, None); Some (true, 1, None); Some (true, 1, None)]
  /\ w_trace
       (checkAt "ip:0123456789abcdef" "month" 2 "/api/proxy/projects"
          [jan31_noon_ms; jan31_noon_ms + 1000; jan31_noon_ms + 2000]
          (freshWorld storeEnv jan31_noon_ms)).2
     = [PipelineIncrExpire "rate:month:1704067200:ip:0123456789abcdef" (-43200);
        PipelineIncrExpire "rate:month:1704067200:ip:0123456789abcdef" (-43201);
        PipelineIncrExpire "rate:month:1704067200:ip:0123456789abcdef" (-43202)]
  /\ w_redis
       (checkAt "ip:0123456789abcdef" "month" 2 "/api/proxy/projects"
          [jan31_noon_ms; jan31_noon_ms + 1000; jan31_noon_ms + 2000]
          (freshWorld storeEnv jan31_noon_ms)).2
     = ∅.
Proof. repeat split; vm_compute; reflexivity. Qed.

(** Were a month counter to survive (a store that ignores the negative
    timeout), the denial would carry a negative [Retry-After]. *)
Example month_window_negative_retry_after :
  headers (countedResult "month" 2 (getResetTime "month" (getWindowStart 0 "month" jan31_noon))
             jan31_noon 3) !! "Retry-After" = Some "-43200".
Proof. vm_compute. reflexivity. Qed.

(** The same three requests against the minute window are counted. *)
Example minute_window_trips :
  map verdict
    (checkAt "ip:0123456789abcdef" "minute" 2 "/api/proxy/projects"
       [jan31_noon_ms; jan31_noon_ms + 1000; jan31_noon_ms + 2000]
       (freshWorld storeEnv jan31_noon_ms)).1
  = [Some (true, 1, None); Some (true, 0, None); Some (false, 0, Some "58")].
Proof. vm_compute. reflexivity. Qed.

(** ** Store failures *)

Lemma try_catch_total {A} (m : M A) (h : string -> M A) :
  (forall e w, exists r w', h e w = (Ret r, w')) ->
  forall w, exists r w', try_catch m h w = (Ret r, w').
Proof.
  intros Hh w. unfold try_catch.
  destruct (m w) as [[r|e] w']; [by exists r, w'|apply Hh].
Qed.

(** A window check whose pipeline throws allows the request and says so. *)
Lemma checkWindowLimit_fails_open (identityKey window : string) (limit : Z)
    (path : string) (w : World) :
  client_available w = true -> next_fault w = true ->
  exists r w',
    checkWindowLimit identityKey window limit path w = (Ret r, w')
    /\ allowed r = true
    /\ headers r !! "X-RateLimit-Error" = Some "redis-unavailable".
Proof.
  intros Hc Hf.
  rewrite (checkWindowLimit_run identityKey window limit path w Hc), Hf.
  eexists _, _. split; [reflexivity|]. split; [reflexivity|].
  unfold degradedResult. simpl. apply lookup_insert_eq.
Qed.

Section RateLimitFacts.
Context `{Platform}.

(** [applyRateLimit] never throws. *)
Lemma applyRateLimit_returns (request : NextRequest) (w : World) :
  exists r w', applyRateLimit request w = (Ret r, w').
Proof.
  unfold applyRateLimit. apply try_catch_total.
  intros e w0. by eexists _, _.
Qed.

End RateLimitFacts.

(** C2 at the failing input.  Every round trip to the store throws.  Each
    window check answers with the marker [X-RateLimit-Error:
    redis-unavailable], but [applyRateLimit] goes on to rebuild the headers
    from the minute limit alone: the request is allowed and nothing in the
    answer tells it from one allowed by a healthy store. *)
Theorem C2_degradation_marker_is_dropped :
  (exists r w',
      checkWindowLimit "ip:12ca17b49af22894" "minute" 10 "/api/proxy/projects"
        world_store_down = (Ret r, w')
      /\ headers r !! "X-RateLimit-Error" = Some "redis-unavailable")
  /\ exists r w',
      @applyRateLimit standInPlatform inScopeRequest world_store_down = (Ret r, w')
      /\ allowed r = true
      /\ headers r !! "X-RateLimit-Error" = None
      /\ headers r !! "X-RateLimit-Remaining" = Some "10"
      /\ headers r !! "X-RateLimit-Identity" = Some "ip"
      /\ dom (headers r)
         = {[ "X-RateLimit-Limit"; "X-RateLimit-Remaining"; "X-RateLimit-Reset";
              "X-RateLimit-Window"; "X-RateLimit-Identity" ]}
      /\ length (w_trace w') = 5%nat
      /\ w_faults w' = [].
Proof.
  split.
  - eexists _, _. split; [vm_compute; reflexivity|]. vm_compute. reflexivity.
  - eexists _, _. split; [vm_compute; reflexivity|].
    repeat split; vm_compute; reflexivity.
Qed.

(** A failed round trip does not even guarantee that the request is
    allowed: the minute check fails open, the hour check that follows goes
    through and denies. *)
Example store_failure_then_denial :
  exists r w',
    @applyRateLimit standInPlatform inScopeRequest world_store_flaky = (Ret r, w')
    /\ allowed r = false
    /\ window r = "hour"
    /\ headers r !! "X-RateLimit-Error" = None
    /\ w_trace w'
       = [PipelineIncrExpire "rate:minute:1706702400:ip:12ca17b49af22894" 60;
          PipelineIncrExpire "rate:hour:1706702400:ip:12ca17b49af22894" 3600].
Proof.
  eexists _, _. split; [vm_compute; reflexivity|].
  repeat split; vm_compute; reflexivity.
Qed.


(** * Further properties of the code *)

(** ** The configuration cache *)

(** X1: [loadConfig] reads the file again only when its mtime is newer
    than that of the last load.  With a configuration cached and an mtime
    that is not newer, the cached configuration is returned and nothing
    changes, whatever the file now holds (other content, or content that no
    longer parses); with nothing cached or a newer mtime, a valid file is
    returned and cached with its mtime.  Hence a second call right after a
    first one returns the same configuration and leaves the state as the
    first call left it. *)
Theorem loadConfig_reloads_only_on_newer_mtime (w : World) :
  (forall c mt parsed,
      w_cachedConfig w = Some c -> w_fs w = FilePresent mt parsed ->
      mt <= w_configLastModified w ->
      loadConfig w = (Ret c, w))
  /\ (forall c mt,
         w_fs w = FilePresent mt (Some c) ->
         w_cachedConfig w = None \/ w_configLastModified w < mt ->
         loadConfig w = (Ret c, set_config (Some c) mt w))
  /\ loadConfig (world_after loadConfig w)
     = (outcome_of loadConfig w, world_after loadConfig w).
Proof.
  split; [|split].
  - intros c mt parsed Hc Hfs Hmt. unfold loadConfig, try_catch.
    rewrite Hfs, Hc.
    assert (Hlt : (w_configLastModified w <? mt) = false) by (apply Z.ltb_ge; lia).
    by rewrite Hlt.
  - intros c mt Hfs Hdue. unfold loadConfig, try_catch. rewrite Hfs.
    destruct Hdue as [-> | Hlt]; [done|].
    destruct (w_cachedConfig w); [|done].
    apply Z.ltb_lt in Hlt. by rewrite Hlt.
  - unfold world_after, outcome_of, loadConfig, try_catch, ret.
    destruct (w_fs w) as [|mt [c|]] eqn:Hfs; simpl.
    + by rewrite Hfs.
    + destruct (w_cachedConfig w) as [c0|] eqn:Hc;
        [destruct (w_configLastModified w <? mt) eqn:Hm|]; simpl;
        rewrite ?Hfs, ?Hc, ?Hm, ?Z.ltb_irrefl; reflexivity.
    + destruct (w_cachedConfig w) as [c0|] eqn:Hc;
        [destruct (w_configLastModified w <? mt) eqn:Hm|]; simpl;
        rewrite ?Hfs, ?Hc, ?Hm; reflexivity.
Qed.

(** The file was rewritten without a newer mtime: the old configuration is
    still served. *)
Lemma loadConfig_reloads_only_on_newer_mtime_witness :
  w_fs world_file_rewritten = FilePresent 1000 (Some secretConfig)
  /\ loadConfig world_file_rewritten = (Ret customConfig, world_file_rewritten).
Proof.
  split; [reflexivity|].
  apply (proj1 (loadConfig_reloads_only_on_newer_mtime world_file_rewritten)
           customConfig 1000 (Some secretConfig)).
  - reflexivity.
  - reflexivity.
  - simpl. lia.
Defined.

Lemma same_but_config_refl (w : World) : same_but_config w w.
Proof.
  exists (w_cachedConfig w), (w_configLastModified w). by destruct w.
Qed.

Lemma same_but_config_trans (w1 w2 w3 : World) :
  same_but_config w1 w2 -> same_but_config w2 w3 -> same_but_config w1 w3.
Proof. intros (cc & m & ->) (cc' & m' & ->). by exists cc', m'. Qed.

Lemma loadConfig_same_but_config (w : World) :
  exists c w', loadConfig w = (Ret c, w') /\ same_but_config w w'.
Proof.
  destruct (loadConfig_returns w) as (c & cc & m & ->).
  exists c, (set_config cc m w). split; [done|]. by exists cc, m.
Qed.

(** ** Identity resolution *)

Section IdentityMore.
Context `{Platform}.

Lemma extractJwtSubject_frame (request : NextRequest) (w : World) :
  exists r w', extractJwtSubject request w = (Ret r, w') /\ same_but_config w w'.
Proof.
  unfold extractJwtSubject, try_catch, bind.
  destruct (h_Authorization request) as [authHeader|];
    [|eexists _, _; split; [reflexivity|apply same_but_config_refl]].
  destruct (negb (JS.truthy authHeader) || negb (JS.startsWith authHeader "Bearer "));
    [eexists _, _; split; [reflexivity|apply same_but_config_refl]|].
  destruct (loadConfig_same_but_config w) as (c & w' & -> & Hsame).
  destruct (jwtSecret c) as [secret|]; [destruct (JS.truthy secret)|];
    unfold try_catch, bind, lift_throw;
    try destruct (jwtVerify _ secret); simpl;
    try destruct (decodeJwt _); simpl;
    eexists _, _; (split; [reflexivity|exact Hsame]).
Qed.

Lemma tryMethod_frame (request : NextRequest) (method : Strategy) (w : World) :
  exists r w', tryMethod request method w = (Ret r, w') /\ same_but_config w w'.
Proof.
  destruct method; unfold tryMethod, try_catch, bind.
  - destruct (extractJwtSubject_frame request w) as (r & w' & -> & Hsame).
    destruct r as [s|]; [destruct (JS.truthy s)|];
      eexists _, _; (split; [reflexivity|exact Hsame]).
  - destruct (extractSessionId request) as [s|]; [destruct (JS.truthy s)|];
      eexists _, _; (split; [reflexivity|apply same_but_config_refl]).
  - eexists _, _. split; [reflexivity|apply same_but_config_refl].
Qed.

Lemma identityWaterfall_kinds (request : NextRequest) (order : list Strategy) (w : World) :
  exists key w',
    identityWaterfall request order w = (Ret key, w')
    /\ same_but_config w w'
    /\ (key = "anonymous" \/ (exists s, key = "jwt:" +:+ s)
        \/ (exists s, key = "session:" +:+ s)
        \/ key = "ip:" +:+ extractHashedIp request).
Proof.
  revert w. induction order as [|method rest IH]; intros w.
  - exists "anonymous", w. split; [done|]. split; [apply same_but_config_refl|by left].
  - simpl. unfold bind.
    destruct (tryMethod_frame request method w) as (r & w1 & Hrun & Hsame).
    destruct (tryMethod_returns request method w) as (r' & w1' & Hrun' & Hr).
    rewrite Hrun in Hrun'. injection Hrun' as <- <-. rewrite Hrun.
    destruct r as [key|].
    + exists key, w1. split; [done|]. split; [done|]. right.
      destruct method; [by left|by (right; left)|by (right; right; destruct Hr)].
    + destruct (IH w1) as (key & w2 & -> & Hsame2 & Hkind).
      exists key, w2. split; [done|]. split; [|done].
      by apply (same_but_config_trans w w1 w2).
Qed.

(** X2: for every configured order and every request, [getIdentityKey]
    returns (it never throws) a key that is ["anonymous"] or starts with
    [jwt:], [session:] or [ip:] (the ip key being [ip:] followed by the
    hashed address); what [X-RateLimit-Identity] shows of it, the part
    before the first colon, is one of the four kind names and never the
    subject, session or hash.  Resolution changes nothing but the
    configuration cache: no round trip to the store is made. *)
Theorem getIdentityKey_total_and_kinded (request : NextRequest) (w : World) :
  exists key w',
    getIdentityKey request w = (Ret key, w')
    /\ (key = "anonymous" \/ (exists s, key = "jwt:" +:+ s)
        \/ (exists s, key = "session:" +:+ s)
        \/ key = "ip:" +:+ extractHashedIp request)
    /\ In (JS.split_first ":" key) identityKinds
    /\ same_but_config w w'
    /\ w_redis w' = w_redis w /\ w_trace w' = w_trace w /\ w_faults w' = w_faults w.
Proof.
  unfold getIdentityKey, bind.
  destruct (loadConfig_same_but_config w) as (c & w1 & -> & Hsame1).
  destruct (identityWaterfall_kinds request (identityOrder c) w1)
    as (key & w2 & -> & Hsame2 & Hkind).
  exists key, w2. split; [done|]. split; [exact Hkind|].
  pose proof (same_but_config_trans _ _ _ Hsame1 Hsame2) as Hsame.
  split; [|split; [exact Hsame|by destruct Hsame as (cc & m & ->)]].
  unfold identityKinds.
  destruct Hkind as [-> | [[s ->] | [[s ->] | ->]]]; simpl; auto.
Qed.

(** X4: with a secret configured, a token that verifies decides alone:
    the answer is the verified subject, or null when the verified payload has
    no (or an empty) subject; the unverified decode is not consulted. *)
Theorem extractJwtSubject_verified (request : NextRequest) (w : World) (c : Config)
    (authHeader secret : string) (payload : JwtPayload)
    (Hauth : h_Authorization request = Some authHeader)
    (Hbearer : JS.startsWith authHeader "Bearer " = true)
    (Hcfg : outcome_of loadConfig w = Ret c)
    (Hsecret : jwtSecret c = Some secret)
    (Hnonempty : JS.truthy secret = true)
    (Hverify : jwtVerify (JS.drop 7 authHeader) secret = Some payload) :
  outcome_of (extractJwtSubject request) w = Ret (or_null (sub payload)).
Proof.
  destruct (loadConfig_returns w) as (c' & cc & m & Hload).
  unfold outcome_of in Hcfg. rewrite Hload in Hcfg. simpl in Hcfg.
  injection Hcfg as ->.
  assert (Htr : JS.truthy authHeader = true).
  { destruct authHeader; [discriminate Hbearer|reflexivity]. }
  unfold outcome_of, extractJwtSubject, try_catch, bind.
  rewrite Hauth, Htr, Hbearer. cbn [negb orb]. rewrite Hload. cbn beta iota.
  rewrite Hsecret, Hnonempty. unfold lift_throw. by rewrite Hverify.
Qed.

End IdentityMore.

Lemma extractJwtSubject_verified_witness :
  outcome_of (@extractJwtSubject standInPlatform
                {| url_pathname := Some "/api/proxy/projects";
                   h_Authorization := Some "Bearer user123.s3cret";
                   h_Cookie := None; h_x_forwarded_for := None; h_x_real_ip := None;
                   h_cf_connecting_ip := None; req_ip := None;
                   req_cookies := CookiesUnavailable |})
    world_with_secret
  = Ret (or_null (Some "user123")).
Proof.
  apply (@extractJwtSubject_verified standInPlatform _ world_with_secret secretConfig
           "Bearer user123.s3cret" "s3cret" {| sub := Some "user123" |});
    reflexivity.
Defined.

(** ** Windows and counter keys *)

(** X5: a minute, hour or day window is a half-open interval of the
    window's length that starts at a multiple of it and contains the
    timestamp; every timestamp of that interval gives the same start (so the
    same counter), and the reset time is the start of the next window. *)
Theorem getWindowStart_aligned (tz : Z) (window : string) (timestamp : Z)
    (Hwindow : aligned_window window) (Hts : 0 <= timestamp) :
  let windowStart := getWindowStart tz window timestamp in
  windowStart <= timestamp < windowStart + ttlMap window
  /\ windowStart mod ttlMap window = 0
  /\ (forall t, windowStart <= t < windowStart + ttlMap window ->
                getWindowStart tz window t = windowStart)
  /\ getWindowStart tz window (getResetTime window windowStart)
     = getResetTime window windowStart.
Proof.
  cbv zeta.
  destruct (aligned_window_start tz window timestamp Hwindow Hts) as (-> & Hmod & Hd).
  set (d := ttlMap window) in *.
  assert (Hz : (timestamp - timestamp mod d) mod d = 0).
  { rewrite Zminus_mod, Z.mod_mod, Z.sub_diag by lia. apply Z.mod_0_l. lia. }
  assert (Hq : timestamp - timestamp mod d = d * (timestamp / d)).
  { pose proof (Z.div_mod timestamp d). lia. }
  assert (Hnn : 0 <= timestamp - timestamp mod d).
  { pose proof (Z.mod_le timestamp d). lia. }
  split; [lia|]. split; [exact Hz|]. split.
  - intros t Ht.
    assert (Ht0 : 0 <= t) by lia.
    destruct (aligned_window_start tz window t Hwindow Ht0) as (-> & Hmod' & _).
    fold d. fold d in Hmod'.
    assert (t mod d = t - d * (timestamp / d)); [|lia].
    symmetry. apply (Z.mod_unique_pos t d (timestamp / d)); lia.
  - unfold getResetTime. fold d.
    assert (Hr0 : 0 <= timestamp - timestamp mod d + d) by lia.
    destruct (aligned_window_start tz window _ Hwindow Hr0) as (-> & _ & _).
    fold d. rewrite Z.add_mod, Hz, Z.mod_same, Z.add_0_l, Z.mod_0_l by lia. lia.
Qed.

Lemma getWindowStart_aligned_witness :
  let windowStart := getWindowStart 0 "minute" 1706702430 in
  windowStart <= 1706702430 < windowStart + ttlMap "minute"
  /\ windowStart mod ttlMap "minute" = 0
  /\ (forall t, windowStart <= t < windowStart + ttlMap "minute" ->
                getWindowStart 0 "minute" t = windowStart)
  /\ getWindowStart 0 "minute" (getResetTime "minute" windowStart)
     = getResetTime "minute" windowStart.
Proof.
  apply (getWindowStart_aligned 0 "minute" 1706702430).
  - left. reflexivity.
  - lia.
Defined.

(** A string without colon, followed by a colon, splits in one way. *)
Lemma split_at_colon (a b x y : string) :
  has_char ":" a = false -> has_char ":" b = false ->
  a +:+ ":" +:+ x = b +:+ ":" +:+ y -> a = b /\ x = y.
Proof.
  revert b. induction a as [|c a IH]; intros [|c' b] Ha Hb Heq; simpl in *.
  - by injection Heq.
  - injection Heq as <- _. rewrite Ascii.eqb_refl in Hb. discriminate.
  - injection Heq as -> _. rewrite Ascii.eqb_refl in Ha. discriminate.
  - injection Heq as -> Heq.
    apply orb_false_elim in Ha as [_ Ha]. apply orb_false_elim in Hb as [_ Hb].
    destruct (IH b Ha Hb Heq) as [-> ->]. done.
Qed.

Lemma pretty_N_go_colon_free (x : N) (s : string) :
  has_char ":" s = false -> has_char ":" (pretty_N_go x s) = false.
Proof.
  revert s. induction (N.lt_wf_0 x) as [x _ IH]; intros s Hs.
  assert (x = 0 \/ 0 < x)%N as [-> | Hx] by lia.
  - by rewrite pretty_N_go_0.
  - rewrite pretty_N_go_step by done. apply IH.
    { by apply N.div_lt. }
    simpl. rewrite Hs. unfold pretty_N_char. by repeat case_match.
Qed.

(** The decimal form of an integer has no colon. *)
Lemma toString_colon_free (n : Z) : has_char ":" (JS.toString n) = false.
Proof.
  unfold JS.toString, pretty, pretty_Z.
  destruct n as [|p|p]; [done| |].
  - unfold pretty, pretty_positive, pretty, pretty_N.
    case_decide; [done|]. by apply pretty_N_go_colon_free.
  - simpl. unfold pretty, pretty_positive, pretty, pretty_N.
    case_decide; [done|]. by apply pretty_N_go_colon_free.
Qed.

(** Window names and decimal numbers have no colon, so a key splits in one way. *)
Lemma generateRedisKey_inj (identityKey1 identityKey2 window1 window2 : string)
    (windowStart1 windowStart2 : Z)
    (Hw1 : In window1 windowNames) (Hw2 : In window2 windowNames)
    (Hkey : generateRedisKey identityKey1 window1 windowStart1
            = generateRedisKey identityKey2 window2 windowStart2) :
  identityKey1 = identityKey2 /\ window1 = window2 /\ windowStart1 = windowStart2.
Proof.
  assert (Hc : forall w, In w windowNames -> has_char ":" w = false).
  { unfold windowNames. intros w [<- | [<- | [<- | [<- | []]]]]; reflexivity. }
  unfold generateRedisKey in Hkey. simpl in Hkey.
  injection Hkey as Hkey.
  apply split_at_colon in Hkey as [-> Hkey]; [|by apply Hc..].
  apply split_at_colon in Hkey as [Hs ->]; [|apply toString_colon_free..].
  apply (inj pretty) in Hs. done.
Qed.

(** X6: the counter key tells window, window start and identity apart:
    for the four window names, two keys are equal only if all three
    components are.  Distinct identities, distinct windows and distinct
    window starts never share a counter, even when the identity itself
    contains colons. *)
Theorem generateRedisKey_injective (identityKey1 identityKey2 window1 window2 : string)
    (windowStart1 windowStart2 : Z)
    (Hw1 : In window1 windowNames) (Hw2 : In window2 windowNames)
    (Hkey : generateRedisKey identityKey1 window1 windowStart1
            = generateRedisKey identityKey2 window2 windowStart2) :
  identityKey1 = identityKey2 /\ window1 = window2 /\ windowStart1 = windowStart2.
Proof.
  assert (Hc : forall w, In w windowNames -> has_char ":" w = false).
  { unfold windowNames. intros w [<- | [<- | [<- | [<- | []]]]]; reflexivity. }
  unfold generateRedisKey in Hkey. simpl in Hkey.
  injection Hkey as Hkey.
  apply split_at_colon in Hkey as [-> Hkey]; [|by apply Hc..].
  apply split_at_colon in Hkey as [Hs ->]; [|apply toString_colon_free..].
  apply (inj pretty) in Hs. done.
Qed.

Lemma generateRedisKey_injective_witness :
  "jwt:a:b" = "jwt:a:b" /\ "minute" = "minute" /\ 120 = 120.
Proof.
  apply (generateRedisKey_injective "jwt:a:b" "jwt:a:b" "minute" "minute" 120 120).
  - left. reflexivity.
  - left. reflexivity.
  - reflexivity.
Defined.

(** ** Isolation and window reset *)

Lemma getRedisClient_unavailable (w : World) :
  client_available w = false ->
  exists e, getRedisClient w = (Throw e, w).
Proof.
  unfold client_available, getRedisClient, redis_configured.
  destruct (w_redisClient w); [done|]. simpl.
  destruct (UPSTASH_REDIS_REST_URL (w_env w)) as [url|]; [|by eexists].
  destruct (UPSTASH_REDIS_REST_TOKEN (w_env w)) as [token|]; [|by eexists].
  intros ->. by eexists.
Qed.

Lemma incr_other_key (now : Z) (st : gmap string RedisEntry) (k k' : string) :
  k' <> k -> (Redis.incr now st k).2 !! k' = st !! k'.
Proof.
  intros Hne. unfold Redis.incr.
  destruct (Redis.lookup now st k); simpl; by rewrite lookup_insert_ne.
Qed.

Lemma expire_other_key (now : Z) (st : gmap string RedisEntry) (k k' : string) (s : Z) :
  k' <> k -> Redis.expire now st k s !! k' = st !! k'.
Proof.
  intros Hne. unfold Redis.expire.
  destruct (Redis.lookup now st k); [|done].
  destruct (s <=? 0); [by rewrite lookup_delete_ne|by rewrite lookup_insert_ne].
Qed.

(** A window check touches no key but its own, keeps the client once it
    has it, and consumes at most one fault decision. *)
Lemma checkWindowLimit_frame (identityKey window : string) (limit : Z) (path : string)
    (w : World) :
  let w' := world_after (checkWindowLimit identityKey window limit path) w in
  (forall k, k <> generateRedisKey identityKey window
                    (getWindowStart (w_tz w) window (w_now w / 1000)) ->
             w_redis w' !! k = w_redis w !! k)
  /\ (client_available w = true -> client_available w' = true)
  /\ (no_faults w -> no_faults w')
  /\ w_tz w' = w_tz w /\ w_env w' = w_env w /\ w_now w' = w_now w.
Proof.
  cbv zeta. unfold world_after.
  destruct (client_available w) eqn:Hc.
  - rewrite (checkWindowLimit_run identityKey window limit path w Hc).
    assert (Hnf : no_faults w ->
                  Forall (fun b => b = false) (tail (w_faults w))).
    { unfold no_faults. destruct (w_faults w); [done|]. by inversion 1. }
    destruct (next_fault w); simpl; (split; [|by repeat split]).
    + done.
    + intros k Hk. by rewrite expire_other_key, incr_other_key.
  - unfold checkWindowLimit, bind.
    destruct (getRedisClient_unavailable w Hc) as [e ->]. simpl. by repeat split.
Qed.

(** X7: identities are isolated.  A window check for one identity leaves
    the counters of every other identity, in every window, as they were, and
    (the store answering) does not change what the other identity is told
    next. *)
Theorem checkWindowLimit_isolation (identityKey1 identityKey2 window1 window2 : string)
    (limit1 limit2 : Z) (path1 path2 : string) (w : World)
    (Hdiff : identityKey1 <> identityKey2)
    (Hw1 : In window1 windowNames) (Hw2 : In window2 windowNames) :
  let w' := world_after (checkWindowLimit identityKey1 window1 limit1 path1) w in
  (forall windowStart,
      w_redis w' !! generateRedisKey identityKey2 window2 windowStart
      = w_redis w !! generateRedisKey identityKey2 window2 windowStart)
  /\ (no_faults w ->
      forall t,
        outcome_of (checkWindowLimit identityKey2 window2 limit2 path2) (set_now t w')
        = outcome_of (checkWindowLimit identityKey2 window2 limit2 path2) (set_now t w)).
Proof.
  cbv zeta.
  destruct (checkWindowLimit_frame identityKey1 window1 limit1 path1 w)
    as (Hframe & Hclient & Hnf & Htz & Henv).
  set (w' := world_after (checkWindowLimit identityKey1 window1 limit1 path1) w) in *.
  assert (Hother : forall windowStart,
             w_redis w' !! generateRedisKey identityKey2 window2 windowStart
             = w_redis w !! generateRedisKey identityKey2 window2 windowStart).
  { intros ws. apply Hframe. intros Heq.
    by destruct (generateRedisKey_inj _ _ _ _ _ _ Hw2 Hw1 Heq) as [-> _]. }
  split; [exact Hother|].
  intros Hno t. unfold outcome_of.
  destruct (client_available w) eqn:Hc.
  - rewrite (checkWindowLimit_run identityKey2 window2 limit2 path2 (set_now t w'))
      by (apply (Hclient eq_refl)).
    rewrite (checkWindowLimit_run identityKey2 window2 limit2 path2 (set_now t w))
      by exact Hc.
    rewrite (no_faults_next (set_now t w')) by (apply (Hnf Hno)).
    rewrite (no_faults_next (set_now t w)) by exact Hno.
    cbn [set_now w_now w_tz w_redis fst]. rewrite Htz.
    unfold Redis.incr, Redis.lookup. rewrite Hother.
    by destruct (w_redis w !! _) as [e|]; [destruct (Redis.live t e)|].
  - assert (Hsame : w' = w).
    { unfold w', world_after, checkWindowLimit, bind.
      by destruct (getRedisClient_unavailable w Hc) as [e ->]. }
    by rewrite Hsame.
Qed.

Lemma checkWindowLimit_isolation_witness :
  let w' := world_after
              (checkWindowLimit "ip:aaaa" "minute" 10 "/api/proxy/projects")
              (freshWorld storeEnv jan31_noon_ms) in
  (forall windowStart,
      w_redis w' !! generateRedisKey "ip:bbbb" "minute" windowStart
      = w_redis (freshWorld storeEnv jan31_noon_ms)
          !! generateRedisKey "ip:bbbb" "minute" windowStart)
  /\ (no_faults (freshWorld storeEnv jan31_noon_ms) ->
      forall t,
        outcome_of (checkWindowLimit "ip:bbbb" "minute" 10 "/api/proxy/projects")
          (set_now t w')
        = outcome_of (checkWindowLimit "ip:bbbb" "minute" 10 "/api/proxy/projects")
            (set_now t (freshWorld storeEnv jan31_noon_ms))).
Proof.
  apply (checkWindowLimit_isolation "ip:aaaa" "ip:bbbb" "minute" "minute" 10 10
           "/api/proxy/projects" "/api/proxy/projects"
           (freshWorld storeEnv jan31_noon_ms)).
  - discriminate.
  - left. reflexivity.
  - left. reflexivity.
Defined.

Lemma checkAt_frame (identityKey window : string) (limit : Z) (path : string)
    (windowStart : Z) (times : list Z) :
  forall w : World,
    Forall (fun t => 0 <= t
                     /\ getWindowStart (w_tz w) window (t / 1000) = windowStart) times ->
    let w' := (checkAt identityKey window limit path times w).2 in
    (forall k, k <> generateRedisKey identityKey window windowStart ->
               w_redis w' !! k = w_redis w !! k)
    /\ (client_available w = true -> client_available w' = true)
    /\ (no_faults w -> no_faults w')
    /\ w_tz w' = w_tz w.
Proof.
  induction times as [|t rest IH]; intros w Hall; [by repeat split|].
  apply Forall_cons in Hall as [[Ht Hws] Hrest].
  destruct (checkWindowLimit_frame identityKey window limit path (set_now t w))
    as (Hframe & Hclient & Hnf & Htz & _).
  cbn [set_now w_now w_tz w_redis] in Hframe, Htz. rewrite Hws in Hframe.
  simpl checkAt. unfold world_after in *.
  destruct (checkWindowLimit identityKey window limit path (set_now t w)) as [r w1].
  simpl in *.
  specialize (IH w1). rewrite Htz in IH. specialize (IH Hrest).
  destruct (checkAt identityKey window limit path rest w1) as [rs w2]. simpl in *.
  destruct IH as (Hframe2 & Hclient2 & Hnf2 & Htz2).
  split; [|split; [|split]].
  - intros k Hk. rewrite Hframe2, Hframe; done.
  - intros Hc. by apply Hclient2, Hclient.
  - intros Hno. by apply Hnf2, Hnf.
  - by rewrite Htz2.
Qed.

(** X8: window reset.  However many requests were counted in one minute,
    hour or day window, the first request of another window of the same
    identity is answered with count 1, from a counter of its own: allowed
    with [limit - 1] remaining whenever the limit is at least 1. *)
Theorem window_rollover_starts_at_one (identityKey window : string) (N : Z)
    (path : string) (windowStart : Z) (times : list Z) (w : World) (t : Z)
    (Hwindow : aligned_window window)
    (Hclient : client_available w = true)
    (Hfaults : no_faults w)
    (Hold : Forall (fun t => 0 <= t
                     /\ getWindowStart (w_tz w) window (t / 1000) = windowStart) times)
    (Ht : 0 <= t)
    (Hnew : getWindowStart (w_tz w) window (t / 1000) <> windowStart)
    (Hfresh : w_redis w !! generateRedisKey identityKey window
                             (getWindowStart (w_tz w) window (t / 1000)) = None) :
  outcome_of (checkWindowLimit identityKey window N path)
    (set_now t (checkAt identityKey window N path times w).2)
  = Ret (countedResult window N
           (getResetTime window (getWindowStart (w_tz w) window (t / 1000)))
           (t / 1000) 1).
Proof.
  destruct (checkAt_frame identityKey window N path windowStart times w Hold)
    as (Hframe & Hc & Hnf & Htz).
  set (w' := (checkAt identityKey window N path times w).2) in *.
  destruct (checkWindowLimit_step identityKey window N path (set_now t w') 0)
    as (w2 & Hrun & _); try done.
  - by apply Hc.
  - by apply Hnf.
  - cbn [set_now w_now w_tz w_redis]. left. split; [done|].
    rewrite Htz, Hframe; [done|].
    intros Heq. apply Hnew.
    assert (Hin : In window windowNames).
    { unfold windowNames. destruct Hwindow as [-> | [-> | ->]]; simpl; auto. }
    by destruct (generateRedisKey_inj _ _ _ _ _ _ Hin Hin Heq) as (_ & _ & ?).
  - unfold outcome_of. rewrite Hrun. cbn [set_now w_now w_tz fst]. by rewrite Htz.
Qed.

(** Ten requests in the minute that starts at noon, then one 61 seconds
    after noon. *)
Lemma window_rollover_starts_at_one_witness :
  outcome_of (checkWindowLimit "ip:0123456789abcdef" "minute" 10 "/api/proxy/projects")
    (set_now (jan31_noon_ms + 61000)
       (checkAt "ip:0123456789abcdef" "minute" 10 "/api/proxy/projects"
          (replicate 11 jan31_noon_ms) (freshWorld storeEnv jan31_noon_ms)).2)
  = Ret (countedResult "minute" 10
           (getResetTime "minute"
              (getWindowStart 0 "minute" ((jan31_noon_ms + 61000) / 1000)))
           ((jan31_noon_ms + 61000) / 1000) 1).
Proof.
  apply (window_rollover_starts_at_one "ip:0123456789abcdef" "minute" 10
           "/api/proxy/projects" jan31_noon (replicate 11 jan31_noon_ms)
           (freshWorld storeEnv jan31_noon_ms) (jan31_noon_ms + 61000)).
  - left. reflexivity.
  - reflexivity.
  - constructor.
  - apply Forall_replicate. split; [by vm_compute|reflexivity].
  - by vm_compute.
  - by vm_compute.
  - reflexivity.
Defined.

(** ** The whole check, with the configuration already loaded *)

Section ApplyMore.
Context `{Platform}.

Lemma extractJwtSubject_steady (request : NextRequest) (w : World) (c : Config) :
  steady w c -> exists r, extractJwtSubject request w = (Ret r, w).
Proof.
  intros Hst. unfold extractJwtSubject, try_catch, bind.
  destruct (h_Authorization request) as [authHeader|]; [|by eexists].
  destruct (negb (JS.truthy authHeader) || negb (JS.startsWith authHeader "Bearer "));
    [by eexists|].
  rewrite Hst.
  destruct (jwtSecret c) as [secret|]; [destruct (JS.truthy secret)|];
    unfold try_catch, bind, lift_throw;
    try destruct (jwtVerify _ secret); simpl;
    try destruct (decodeJwt _); simpl; by eexists.
Qed.

Lemma identityWaterfall_steady (request : NextRequest) (order : list Strategy)
    (w : World) (c : Config) :
  steady w c -> exists key, identityWaterfall request order w = (Ret key, w).
Proof.
  intros Hst. induction order as [|method rest IH]; [by eexists|].
  simpl. unfold bind.
  assert (Hm : exists r, tryMethod request method w = (Ret r, w)).
  { destruct method; unfold tryMethod, try_catch, bind.
    - destruct (extractJwtSubject_steady request w c Hst) as [r ->].
      destruct r as [s|]; [destruct (JS.truthy s)|]; by eexists.
    - destruct (extractSessionId request) as [s|]; [destruct (JS.truthy s)|];
        by eexists.
    - by eexists. }
  destruct Hm as [r ->]. destruct r as [key|]; [by eexists|exact IH].
Qed.

Lemma getIdentityKey_steady (request : NextRequest) (w : World) (c : Config) :
  steady w c -> exists key, getIdentityKey request w = (Ret key, w).
Proof.
  intros Hst. unfold getIdentityKey, bind. rewrite Hst.
  by apply (identityWaterfall_steady request _ w c).
Qed.

(** With every limit at zero no window is checked. *)
Lemma checkWindows_all_zero (identityKey path : string) (limits : Limits)
    (windows : list string) (w : World) :
  (forall window, In window windows -> limits_get limits window = 0) ->
  checkWindows identityKey path limits windows w = (Ret None, w).
Proof.
  induction windows as [|window rest IH]; intros Hz; [done|].
  simpl. rewrite (Hz window) by (by left). simpl. apply IH.
  intros w' Hin. apply Hz. by right.
Qed.

(** X9: limits of zero switch the limiter off.  For a route in scope, with
    all four limits at 0, the request is allowed with the placeholder limit
    and remaining count 999999, and nothing at all is asked of the store: a
    limit of 0 never means "always block". *)
Theorem applyRateLimit_zero_limits_unconstrained (request : NextRequest) (path : string)
    (w : World) (c : Config)
    (Hsteady : steady w c)
    (Hurl : url_pathname request = Some path)
    (Hscope : existsb (fun route => JS.startsWith path route) (routesInScope c) = true)
    (Hzero : limits_global c = {| minute := 0; hour := 0; day := 0; month := 0 |}) :
  exists r,
    applyRateLimit request w = (Ret r, w)
    /\ allowed r = true
    /\ remaining r = 999999 /\ limit r = 999999
    /\ resetTime r = w_now w / 1000 + 60
    /\ headers r !! "X-RateLimit-Error" = None.
Proof.
  destruct (getIdentityKey_steady request w c Hsteady) as [key Hkey].
  unfold applyRateLimit, try_catch, bind, isRouteInScope, getIdentityConfig, bind.
  rewrite Hurl. simpl lift_throw. unfold ret at 1. rewrite Hsteady.
  unfold ret at 1. rewrite Hscope. cbn [negb]. rewrite Hkey, Hsteady.
  rewrite checkWindows_all_zero
    by (rewrite Hzero; intros window [<- | [<- | [<- | [<- | []]]]]; reflexivity).
  rewrite Hzero. simpl. eexists. split; [reflexivity|]. by repeat split.
Qed.

(** When no client can be made, the first enforced window throws. *)
Lemma checkWindows_unavailable (identityKey path : string) (limits : Limits)
    (windows : list string) (w : World) :
  client_available w = false ->
  (exists window, In window windows /\ limits_get limits window <> 0) ->
  exists e, checkWindows identityKey path limits windows w = (Throw e, w).
Proof.
  intros Hc. induction windows as [|window rest IH]; intros (w0 & Hin & Hnz);
    [destruct Hin|].
  simpl. destruct (limits_get limits window =? 0) eqn:Hz.
  - apply IH. exists w0. destruct Hin as [<- | Hin]; [|done].
    apply Z.eqb_eq in Hz. done.
  - unfold bind, checkWindowLimit, bind.
    destruct (getRedisClient_unavailable w Hc) as [e ->]. by eexists.
Qed.

(** X10: a store that is not configured does not fail the request.  For a
    route in scope with at least one enforced window, when the store's URL or
    token is missing, [applyRateLimit] returns allowed with the marker
    [X-RateLimit-Error: system-error], window ["error"] and the placeholder
    999999, and leaves the world untouched. *)
Theorem applyRateLimit_unconfigured_store (request : NextRequest) (path : string)
    (w : World) (c : Config)
    (Hsteady : steady w c)
    (Hurl : url_pathname request = Some path)
    (Hscope : existsb (fun route => JS.startsWith path route) (routesInScope c) = true)
    (Hclient : client_available w = false)
    (Henforced : exists window, In window windowNames
                                /\ limits_get (limits_global c) window <> 0) :
  exists r,
    applyRateLimit request w = (Ret r, w)
    /\ allowed r = true
    /\ headers r = {["X-RateLimit-Error" := "system-error"]}
    /\ window r = "error"
    /\ remaining r = 999999 /\ limit r = 999999.
Proof.
  destruct (getIdentityKey_steady request w c Hsteady) as [key Hkey].
  destruct (checkWindows_unavailable key path (limits_global c) windowNames w
              Hclient Henforced) as [e He].
  unfold applyRateLimit, try_catch, bind, isRouteInScope, getIdentityConfig, bind.
  rewrite Hurl. simpl lift_throw. unfold ret at 1. rewrite Hsteady.
  unfold ret at 1. rewrite Hscope. cbn [negb]. rewrite Hkey, Hsteady.
  unfold windowNames in He. rewrite He. simpl.
  eexists. split; [reflexivity|]. by repeat split.
Qed.

End ApplyMore.

Section DenyMore.
Context `{Platform}.

(** X11: a request over the minute limit is denied at the first window.
    With the minute counter of the caller already at the limit, the request
    is answered allowed=false for the minute window, remaining 0, a
    [Retry-After] between 1 and 60 seconds and the identity kind; the one
    round trip made is the minute pipeline, so the hour, day and month
    counters are not incremented by a denied request; and
    [enforceRateLimit] throws. *)
Theorem applyRateLimit_denies_at_minute (request : NextRequest) (path : string)
    (w : World) (c : Config) (key : string) (cnt : Z)
    (Hsteady : steady w c)
    (Hurl : url_pathname request = Some path)
    (Hscope : existsb (fun route => JS.startsWith path route) (routesInScope c) = true)
    (Hkey : getIdentityKey request w = (Ret key, w))
    (Hclient : client_available w = true)
    (Hfaults : no_faults w)
    (Hnow : 0 <= w_now w)
    (Hlimit : minute (limits_global c) <> 0)
    (Hcount : counter_at w
                (generateRedisKey key "minute"
                   (getWindowStart (w_tz w) "minute" (w_now w / 1000))) cnt
                (getResetTime "minute"
                   (getWindowStart (w_tz w) "minute" (w_now w / 1000)) * 1000))
    (Hover : minute (limits_global c) <= cnt) :
  let timestamp := w_now w / 1000 in
  let retryAfter := 60 - timestamp mod 60 in
  let minuteKey := generateRedisKey key "minute"
                     (getWindowStart (w_tz w) "minute" timestamp) in
  exists r w',
    applyRateLimit request w = (Ret r, w')
    /\ allowed r = false /\ window r = "minute"
    /\ remaining r = 0 /\ limit r = minute (limits_global c)
    /\ 0 < retryAfter <= 60
    /\ headers r !! "Retry-After" = Some (JS.toString retryAfter)
    /\ headers r !! "X-RateLimit-Identity" = Some (JS.split_first ":" key)
    /\ w_trace w' = (w_trace w ++ [PipelineIncrExpire minuteKey retryAfter])%list
    /\ (forall k, k <> minuteKey -> w_redis w' !! k = w_redis w !! k)
    /\ enforceRateLimit request w = (Throw "Rate limit exceeded", w').
Proof.
  cbv zeta.
  assert (Hal : aligned_window "minute") by (by left).
  assert (Hts : 0 <= w_now w / 1000) by (apply Z.div_pos; lia).
  destruct (aligned_window_start (w_tz w) "minute" _ Hal Hts) as (Hstart & Hmod & _).
  change (ttlMap "minute") with 60 in *.
  destruct (checkWindowLimit_step key "minute" (minute (limits_global c)) path w cnt
              Hal Hnow Hclient Hfaults Hcount) as (w1 & Hrun & _).
  pose proof (checkWindowLimit_frame key "minute" (minute (limits_global c)) path w)
    as (Hframe & _).
  pose proof (checkWindowLimit_run key "minute" (minute (limits_global c)) path w Hclient)
    as Hrun'.
  cbv zeta in Hrun'. rewrite (no_faults_next w Hfaults), Hrun in Hrun'.
  apply (f_equal snd) in Hrun'. cbn [snd] in Hrun'.
  rename Hrun' into Hw1.
  assert (Htrace : w_trace w1
                   = (w_trace w ++ [PipelineIncrExpire
                                      (generateRedisKey key "minute"
                                         (getWindowStart (w_tz w) "minute" (w_now w / 1000)))
                                      (60 - (w_now w / 1000) mod 60)])%list).
  { rewrite Hw1. cbn [w_trace set_roundtrip set_redisClient]. do 3 f_equal.
    unfold getResetTime. change (ttlMap "minute") with 60. lia. }
  unfold world_after in Hframe. rewrite Hrun in Hframe. simpl in Hframe.
  assert (Hle : (cnt + 1 <=? minute (limits_global c)) = false)
    by (apply Z.leb_gt; lia).
  assert (Hnz : (minute (limits_global c) =? 0) = false) by (by apply Z.eqb_neq).
  assert (Happly : exists r,
             applyRateLimit request w = (Ret r, w1)
             /\ allowed r = false /\ window r = "minute"
             /\ remaining r = 0 /\ limit r = minute (limits_global c)
             /\ headers r !! "Retry-After"
                = Some (JS.toString (60 - (w_now w / 1000) mod 60))
             /\ headers r !! "X-RateLimit-Identity" = Some (JS.split_first ":" key)).
  { unfold applyRateLimit, try_catch, bind, isRouteInScope, getIdentityConfig, bind.
    rewrite Hurl. simpl lift_throw. unfold ret at 1. rewrite Hsteady.
    unfold ret at 1. rewrite Hscope. cbn [negb]. rewrite Hkey, Hsteady.
    cbn [checkWindows].
    change (limits_get (limits_global c) "minute") with (minute (limits_global c)).
    rewrite Hnz. unfold bind. rewrite Hrun.
    unfold countedResult. cbn [allowed headers]. rewrite Hle. cbn [negb].
    unfold ret. eexists. split; [reflexivity|].
    unfold with_headers. cbn [allowed window remaining limit headers].
    split; [done|]. split; [done|]. split; [lia|]. split; [done|].
    split.
    - rewrite lookup_insert_ne by done. rewrite lookup_insert_eq.
      do 2 f_equal. unfold getResetTime. change (ttlMap "minute") with 60. lia.
    - by rewrite lookup_insert_eq. }
  destruct Happly as (r & Happly & Hallowed & Hwin & Hrem & Hlim & Hretry & Hid).
  exists r, w1. split; [exact Happly|].
  split; [done|]. split; [done|]. split; [done|]. split; [done|].
  split; [lia|]. split; [done|]. split; [done|]. split; [done|].
  split; [exact Hframe|].
  unfold enforceRateLimit, bind. rewrite Happly, Hallowed. reflexivity.
Qed.

End DenyMore.

(** ** The allowed path *)




Section AllowedMore.
Context `{Platform}.


End AllowedMore.

(** *** The four theorems on [applyRateLimit] at concrete requests *)

Lemma applyRateLimit_zero_limits_unconstrained_witness :
  exists r,
    @applyRateLimit standInPlatform inScopeRequest
      (loadedWorld unlimitedConfig storeEnv jan31_noon_ms [] (minuteCounterAt 7))
    = (Ret r, loadedWorld unlimitedConfig storeEnv jan31_noon_ms [] (minuteCounterAt 7))
    /\ allowed r = true
    /\ remaining r = 999999 /\ limit r = 999999
    /\ resetTime r = jan31_noon_ms / 1000 + 60
    /\ headers r !! "X-RateLimit-Error" = None.
Proof.
  apply (@applyRateLimit_zero_limits_unconstrained standInPlatform inScopeRequest
           "/api/proxy/projects"
           (loadedWorld unlimitedConfig storeEnv jan31_noon_ms [] (minuteCounterAt 7))
           unlimitedConfig); reflexivity.
Defined.

Lemma applyRateLimit_unconfigured_store_witness :
  exists r,
    @applyRateLimit standInPlatform inScopeRequest
      (loadedWorld tightConfig noEnv jan31_noon_ms [] ∅)
    = (Ret r, loadedWorld tightConfig noEnv jan31_noon_ms [] ∅)
    /\ allowed r = true
    /\ headers r = {["X-RateLimit-Error" := "system-error"]}
    /\ window r = "error"
    /\ remaining r = 999999 /\ limit r = 999999.
Proof.
  apply (@applyRateLimit_unconfigured_store standInPlatform inScopeRequest
           "/api/proxy/projects" (loadedWorld tightConfig noEnv jan31_noon_ms [] ∅)
           tightConfig); try reflexivity.
  exists "minute". split; [left; reflexivity|]. vm_compute. discriminate.
Defined.

Lemma applyRateLimit_denies_at_minute_witness :
  exists r w',
    @applyRateLimit standInPlatform inScopeRequest
      (loadedWorld tightConfig storeEnv jan31_noon_ms [] (minuteCounterAt 2))
    = (Ret r, w')
    /\ allowed r = false /\ window r = "minute" /\ remaining r = 0
    /\ @enforceRateLimit standInPlatform inScopeRequest
         (loadedWorld tightConfig storeEnv jan31_noon_ms [] (minuteCounterAt 2))
       = (Throw "Rate limit exceeded", w').
Proof.
  destruct (@applyRateLimit_denies_at_minute standInPlatform inScopeRequest
              "/api/proxy/projects"
              (loadedWorld tightConfig storeEnv jan31_noon_ms [] (minuteCounterAt 2))
              tightConfig "ip:12ca17b49af22894" 2)
    as (r & w' & Hrun & Hallowed & Hwindow & Hrem & _ & _ & _ & _ & _ & _ & Hthrow);
    try reflexivity.
  - constructor.
  - by vm_compute.
  - by vm_compute.
  - right. eexists. split; [vm_compute; reflexivity|]. vm_compute. discriminate.
  - by exists r, w'.
Defined.


(** ** The verification gate, further *)

Lemma startsWith_ip_not_authenticated (identityKey : string) :
  JS.startsWith identityKey "ip:" = true ->
  JS.startsWith identityKey "jwt:" = false
  /\ JS.startsWith identityKey "session:" = false.
Proof.
  unfold JS.startsWith. destruct identityKey as [|a k]; cbn [String.prefix].
  { intros Hf. discriminate Hf. }
  destruct (ascii_dec "i" a) as [<- | Hne]; [|intros Hf; discriminate Hf].
  intros _. split.
  - destruct (ascii_dec "j" "i") as [Heq | _]; [discriminate Heq|reflexivity].
  - destruct (ascii_dec "s" "i") as [Heq | _]; [discriminate Heq|reflexivity].
Qed.

(** The decision of [isTurnstileRequired], in one expression. *)
Lemma isTurnstileRequired_eq (env : Env) (identityKey : string) :
  isTurnstileRequired env identityKey
  = enabled (getTurnstileConfig env)
    && requiredForIPUsers (getTurnstileConfig env)
    && JS.startsWith identityKey "ip:".
Proof.
  unfold isTurnstileRequired.
  destruct (enabled (getTurnstileConfig env)); [|done]. cbn [negb andb].
  destruct (JS.startsWith identityKey "ip:") eqn:Hip.
  - destruct (startsWith_ip_not_authenticated identityKey Hip) as [-> ->].
    rewrite !andb_false_r. cbn [andb].
    by destruct (requiredForIPUsers (getTurnstileConfig env)).
  - rewrite andb_false_r.
    destruct (bypassAuthenticated (getTurnstileConfig env));
      cbn [andb]; by repeat case_match.
Qed.

(** X13: who is asked for a challenge.  [isTurnstileRequired] is true
    exactly when the gate is enabled, [requiredForIPUsers] is set and the key
    starts with [ip:].  The [bypassAuthenticated] flag does not enter the
    decision: jwt and session identities are never challenged, with or
    without it, and neither is the ["anonymous"] fallback. *)
Theorem isTurnstileRequired_only_ip (env : Env) (identityKey : string) :
  isTurnstileRequired env identityKey
  = enabled (getTurnstileConfig env)
    && requiredForIPUsers (getTurnstileConfig env)
    && JS.startsWith identityKey "ip:".
Proof.
  unfold isTurnstileRequired.
  destruct (enabled (getTurnstileConfig env)); [|done]. cbn [negb andb].
  destruct (JS.startsWith identityKey "ip:") eqn:Hip.
  - destruct (startsWith_ip_not_authenticated identityKey Hip) as [-> ->].
    rewrite !andb_false_r. cbn [andb].
    by destruct (requiredForIPUsers (getTurnstileConfig env)).
  - rewrite andb_false_r.
    destruct (bypassAuthenticated (getTurnstileConfig env));
      cbn [andb]; by repeat case_match.
Qed.

(** X14: what [applyTurnstileVerification] answers.  It never throws;
    [required] is the decision of [isTurnstileRequired]; the caller is
    refused (verified=false, with the error text) exactly when a challenge is
    required and neither the store nor the in-process map reports a record,
    and a required caller who passes is marked as cached. *)
Theorem applyTurnstileVerification_outcome (identityKey : string) (w : World) :
  exists r,
    outcome_of (applyTurnstileVerification identityKey) w = Ret r
    /\ required r = isTurnstileRequired (w_env w) identityKey
    /\ verified r = negb (isTurnstileRequired (w_env w) identityKey)
                    || store_reports w identityKey || memory_reports w identityKey
    /\ (verified r = false <-> error r <> None)
    /\ (required r = true -> verified r = true -> bypassReason r = Some Cached).
Proof.
  unfold outcome_of, applyTurnstileVerification, bind, get_world.
  rewrite (isTurnstileRequired_eq (w_env w) identityKey).
  destruct (enabled (getTurnstileConfig (w_env w))); cbn [negb andb].
  2:{ eexists. split; [reflexivity|]. by repeat split. }
  destruct (requiredForIPUsers (getTurnstileConfig (w_env w))
            && JS.startsWith identityKey "ip:"); cbn [negb orb].
  2:{ eexists. split; [reflexivity|]. by repeat split. }
  pose proof (hasValidCachedVerification_outcome identityKey w) as Hcache.
  unfold outcome_of in Hcache.
  destruct (hasValidCachedVerification identityKey w) as [o w1]. simpl in Hcache.
  subst o.
  destruct (store_reports w identityKey || memory_reports w identityKey);
    (eexists; split; [reflexivity|]); by repeat split.
Qed.

Lemma call_ttl_run (k : string) (w : World) :
  RedisMore.call_ttl k w
  = if next_fault w then (Throw "redis", set_store (w_redis w) w)
    else (Ret (RedisMore.ttl (w_now w) (w_redis w) k), set_store (w_redis w) w).
Proof.
  unfold RedisMore.call_ttl, RedisMore.roundtrip, next_fault.
  by destruct (w_faults w) as [|[|] fs].
Qed.

Lemma getVerificationStatus_outcome (identityKey : string) (w : World) :
  outcome_of (getVerificationStatus identityKey) w
  = Ret (if redis_configured (w_env w) && negb (next_fault w)
            && (0 <? RedisMore.ttl (w_now w) (w_redis w) (getCacheKey identityKey))
         then {| vs_verified := true;
                 vs_ttlSeconds :=
                   Some (Some (RedisMore.ttl (w_now w) (w_redis w)
                                 (getCacheKey identityKey))) |}
         else memory_status w identityKey).
Proof.
  unfold outcome_of, getVerificationStatus, bind, try_catch, get_world.
  rewrite getTurnstileRedis_run. unfold memory_status.
  destruct (redis_configured (w_env w)) eqn:Hconf; cbn [andb].
  - rewrite call_ttl_run.
    change (next_fault (set_turnstileRedis true w)) with (next_fault w).
    cbn [set_turnstileRedis w_now w_redis].
    destruct (next_fault w); cbn [negb andb].
    + unfold ret. cbn [set_store set_turnstileRedis w_verificationCache w_now w_env].
      by destruct (w_verificationCache w !! getCacheKey identityKey).
    + destruct (0 <? RedisMore.ttl (w_now w) (w_redis w) (getCacheKey identityKey));
        [done|].
      unfold ret. cbn [set_store set_turnstileRedis w_verificationCache w_now w_env].
      by destruct (w_verificationCache w !! getCacheKey identityKey).
  - unfold ret. by destruct (w_verificationCache w !! getCacheKey identityKey).
Qed.

(** X15: [getVerificationStatus] never reports an identity as verified
    that the cache check would not accept in the same state: a positive TTL
    in the store means the key exists, and time left on the in-process record
    means it is younger than the cache duration. *)
Theorem getVerificationStatus_sound (identityKey : string) (w : World)
    (status : VerificationStatus)
    (Hstatus : outcome_of (getVerificationStatus identityKey) w = Ret status)
    (Hverified : vs_verified status = true) :
  outcome_of (isIdentityVerified identityKey) w = Ret true.
Proof.
  unfold isIdentityVerified. rewrite hasValidCachedVerification_outcome. f_equal.
  rewrite getVerificationStatus_outcome in Hstatus. injection Hstatus as <-.
  unfold store_reports, memory_reports.
  destruct (redis_configured (w_env w) && negb (next_fault w)); cbn [andb] in *.
  - destruct (0 <? RedisMore.ttl (w_now w) (w_redis w) (getCacheKey identityKey))
      eqn:Httl.
    + unfold RedisMore.ttl in Httl. unfold Redis.exists_.
      destruct (Redis.lookup _ _ _); [done|discriminate].
    + apply orb_true_iff. right. revert Hverified. unfold memory_status.
      destruct (w_verificationCache w !! getCacheKey identityKey) as [cached|];
        [|discriminate].
      destruct (cacheDuration (getTurnstileConfig (w_env w))) as [d|];
        [|discriminate].
      simpl. intros Hv%Z.ltb_lt. apply Z.ltb_lt. lia.
  - revert Hverified. unfold memory_status.
    destruct (w_verificationCache w !! getCacheKey identityKey) as [cached|];
      [|discriminate].
    destruct (cacheDuration (getTurnstileConfig (w_env w))) as [d|];
      [|discriminate].
    simpl. intros Hv%Z.ltb_lt. apply Z.ltb_lt. lia.
Qed.

Lemma getVerificationStatus_sound_witness :
  outcome_of (isIdentityVerified "ip:0123456789abcdef") world_verified = Ret true.
Proof.
  apply (getVerificationStatus_sound "ip:0123456789abcdef" world_verified
           {| vs_verified := true; vs_ttlSeconds := Some (Some 300) |});
    reflexivity.
Defined.

Lemma call_del_run (keys : list string) (w : World) :
  RedisMore.call_del keys w
  = if next_fault w then (Throw "redis", set_store (w_redis w) w)
    else (Ret tt, set_store (RedisMore.del (w_redis w) keys) w).
Proof.
  unfold RedisMore.call_del, RedisMore.roundtrip, next_fault.
  by destruct (w_faults w) as [|[|] fs].
Qed.

(** X16: clearing works.  [clearVerificationCache] never throws, also when
    the DEL does, and always removes the identity's record from the in-process
    map; when the store is not configured, or the DEL goes through, the
    identity is not verified any more, at any later instant and whatever the
    store does then. *)
Theorem clearVerificationCache_unverifies (identityKey : string) (w : World) :
  outcome_of (clearVerificationCache identityKey) w = Ret tt
  /\ w_verificationCache (world_after (clearVerificationCache identityKey) w)
     !! getCacheKey identityKey = None
  /\ (redis_configured (w_env w) = false \/ next_fault w = false ->
      forall t,
        outcome_of (isIdentityVerified identityKey)
          (set_now t (world_after (clearVerificationCache identityKey) w))
        = Ret false).
Proof.
  assert (Hrun : exists st,
             clearVerificationCache identityKey w
             = (Ret tt,
                set_verificationCache
                  (delete (getCacheKey identityKey) (w_verificationCache w))
                  (if redis_configured (w_env w)
                   then set_store st (set_turnstileRedis true w) else w))
             /\ (redis_configured (w_env w) = true -> next_fault w = false ->
                 st !! getCacheKey identityKey = None)).
  { unfold clearVerificationCache, bind, try_catch.
    rewrite getTurnstileRedis_run.
    destruct (redis_configured (w_env w)) eqn:Hconf.
    - rewrite call_del_run.
      change (next_fault (set_turnstileRedis true w)) with (next_fault w).
      destruct (next_fault w).
      + exists (w_redis w). split; [reflexivity|]. intros _ Hf. discriminate Hf.
      + eexists. split; [reflexivity|]. intros _ _.
        simpl. apply lookup_delete_eq.
    - exists ∅. split; [reflexivity|]. intros Hf. discriminate Hf. }
  destruct Hrun as (st & Hrun & Hst).
  unfold world_after, outcome_of. rewrite Hrun. cbn [fst snd].
  split; [done|]. split.
  - cbn [set_verificationCache w_verificationCache]. apply lookup_delete_eq.
  - intros Hdel t. unfold isIdentityVerified.
    pose proof (hasValidCachedVerification_outcome identityKey) as Hout.
    unfold outcome_of in Hout. rewrite Hout. f_equal.
    unfold store_reports, memory_reports.
    cbn [set_now set_verificationCache w_verificationCache w_env w_now w_redis].
    rewrite lookup_delete_eq.
    destruct (redis_configured (w_env w)) eqn:Hconf.
    + destruct Hdel as [Hdel | Hdel]; [discriminate|].
      cbn [set_store set_turnstileRedis w_env w_redis]. rewrite Hconf.
      unfold Redis.exists_, Redis.lookup. rewrite (Hst eq_refl Hdel).
      by rewrite andb_false_r.
    + by rewrite Hconf.
Qed.

(** The DEL goes through. *)
Lemma clearVerificationCache_unverifies_witness :
  outcome_of (clearVerificationCache "ip:0123456789abcdef") world_verified = Ret tt
  /\ w_verificationCache
       (world_after (clearVerificationCache "ip:0123456789abcdef") world_verified)
     !! getCacheKey "ip:0123456789abcdef" = None
  /\ forall t,
      outcome_of (isIdentityVerified "ip:0123456789abcdef")
        (set_now t (world_after (clearVerificationCache "ip:0123456789abcdef")
                      world_verified))
      = Ret false.
Proof.
  destruct (clearVerificationCache_unverifies "ip:0123456789abcdef" world_verified)
    as (Hret & Hmap & Hlater).
  split; [exact Hret|]. split; [exact Hmap|].
  apply Hlater. right. reflexivity.
Defined.

(** The DEL throws: no exception, the map record is gone, the store record
    stays and still verifies the identity. *)
Example clearVerificationCache_del_throws :
  let w := world_after (clearVerificationCache "ip:0123456789abcdef")
             (set_faults_of world_verified [true]) in
  outcome_of (clearVerificationCache "ip:0123456789abcdef")
    (set_faults_of world_verified [true]) = Ret tt
  /\ w_verificationCache w !! getCacheKey "ip:0123456789abcdef" = None
  /\ w_redis w = w_redis world_verified
  /\ outcome_of (isIdentityVerified "ip:0123456789abcdef") w = Ret true.
Proof. repeat split; vm_compute; reflexivity. Qed.

(** X17: the five-minute sweep.  After the sweep the map holds exactly the
    records verified at most five minutes ago.  For a cache duration of at
    most five minutes (the default is five minutes) the sweep changes the
    answer of the in-process tier for no identity. *)
Theorem sweepVerificationCache_keeps_valid_records (w : World) (d : Z)
    (Hd : cacheDuration (getTurnstileConfig (w_env w)) = Some d)
    (Hshort : d <= 300000) :
  let w1 := world_after sweepVerificationCache w in
  (forall k v, w_verificationCache w1 !! k = Some v
               <-> w_verificationCache w !! k = Some v
                   /\ w_now w - verifiedAt v <= 300000)
  /\ forall identityKey, memory_reports w1 identityKey = memory_reports w identityKey.
Proof.
  cbv zeta. unfold world_after, sweepVerificationCache.
  cbn [snd set_verificationCache w_verificationCache].
  assert (Hchar : forall k v,
             filter (fun kv : string * VerificationCache =>
                       ~ (5 * 60 * 1000 < w_now w - verifiedAt kv.2))
               (w_verificationCache w) !! k = Some v
             <-> w_verificationCache w !! k = Some v
                 /\ w_now w - verifiedAt v <= 300000).
  { intros k v. rewrite map_lookup_filter_Some. simpl. split; intros [? ?]; split;
      try done; lia. }
  split; [exact Hchar|].
  intros identityKey. unfold memory_reports.
  cbn [set_verificationCache w_verificationCache w_env w_now]. rewrite Hd.
  destruct (w_verificationCache w !! getCacheKey identityKey) as [v|] eqn:Hv.
  - destruct (decide (w_now w - verifiedAt v <= 300000)) as [Hage | Hage].
    + by rewrite (proj2 (Hchar _ v) (conj Hv Hage)).
    + destruct (filter _ (w_verificationCache w) !! getCacheKey identityKey)
        as [v'|] eqn:Hf.
      * apply Hchar in Hf as [Hv' _]. by simplify_eq.
      * simpl. symmetry. apply Z.ltb_ge. lia.
  - destruct (filter _ (w_verificationCache w) !! getCacheKey identityKey)
      as [v'|] eqn:Hf; [|done].
    apply Hchar in Hf as [Hv' _]. congruence.
Qed.

Lemma sweepVerificationCache_keeps_valid_records_witness :
  let w1 := world_after sweepVerificationCache world_verified in
  (forall k v, w_verificationCache w1 !! k = Some v
               <-> w_verificationCache world_verified !! k = Some v
                   /\ w_now world_verified - verifiedAt v <= 300000)
  /\ forall identityKey,
      memory_reports w1 identityKey = memory_reports world_verified identityKey.
Proof.
  apply (sweepVerificationCache_keeps_valid_records world_verified 300000).
  - reflexivity.
  - lia.
Defined.

Lemma countEntries_total (now : Z) (d : option Z) (values : list VerificationCache) :
  forall a b,
    (let '(v, e) :=
       fold_left
         (fun '(validEntries, expiredEntries) cache =>
            if lt_num (now - verifiedAt cache) d
            then (S validEntries, expiredEntries)
            else (validEntries, S expiredEntries))
         values (a, b) in (v + e)%nat)
    = (a + b + length values)%nat.
Proof.
  induction values as [|x rest IH]; intros a b; simpl; [lia|].
  destruct (lt_num (now - verifiedAt x) d); rewrite IH; lia.
Qed.

(** X18: the statistics add up: every entry of the in-process map is
    counted once, as valid or as expired. *)
Theorem getVerificationCacheStats_adds_up (w : World) :
  (validEntries (getVerificationCacheStats w)
   + expiredEntries (getVerificationCacheStats w))%nat
  = totalEntries (getVerificationCacheStats w)
  /\ totalEntries (getVerificationCacheStats w) = size (w_verificationCache w).
Proof.
  unfold getVerificationCacheStats, countEntries.
  pose proof (countEntries_total (w_now w)
                (cacheDuration (getTurnstileConfig (w_env w)))
                (map_to_list (w_verificationCache w)).*2 0%nat 0%nat) as Hsum.
  destruct (fold_left _ _ _) as [v e]. simpl in *.
  rewrite Hsum, length_fmap, length_map_to_list. done.
Qed.

(** ** Administrative reset *)

(** [resetUserCounters] builds the keys of the limiter. *)
Lemma resetUserCounters_run (identityKey : string) (window : option ResetWindow)
    (w : World) :
  redis_configured (w_env w) = true -> next_fault w = false ->
  resetUserCounters identityKey window w
  = (Ret tt,
     set_store
       (RedisMore.del (w_redis w)
          (match window with
           | Some x => [generateRedisKey identityKey (resetWindowName x)
                          (getWindowStart (w_tz w) (resetWindowName x) (w_now w / 1000))]
           | None =>
               (fun x => generateRedisKey identityKey x
                           (getWindowStart (w_tz w) x (w_now w / 1000)))
                 <$> ["minute"; "hour"; "day"]
           end)) w).
Proof.
  intros Hconf Hf.
  unfold resetUserCounters, bind, analyticsRedisClient, getTimeWindows, try_catch.
  rewrite Hconf. destruct window as [[| |]|]; rewrite call_del_run, Hf; reflexivity.
Qed.

(** X19: an administrative reset of one window takes effect at once and on
    the limiter's own counter: after [resetUserCounters(id, window)] the next
    request of that identity in that window is answered with count 1, and no
    other key of the store has changed. *)
Theorem resetUserCounters_restarts_window (identityKey : string) (window : ResetWindow)
    (N : Z) (path : string) (w : World)
    (Hconf : redis_configured (w_env w) = true)
    (Hfaults : no_faults w)
    (Hnow : 0 <= w_now w) :
  let name := resetWindowName window in
  let windowStart := getWindowStart (w_tz w) name (w_now w / 1000) in
  let w1 := world_after (resetUserCounters identityKey (Some window)) w in
  outcome_of (resetUserCounters identityKey (Some window)) w = Ret tt
  /\ outcome_of (checkWindowLimit identityKey name N path) w1
     = Ret (countedResult name N (getResetTime name windowStart) (w_now w / 1000) 1)
  /\ forall k, k <> generateRedisKey identityKey name windowStart ->
               w_redis w1 !! k = w_redis w !! k.
Proof.
  cbv zeta. unfold world_after, outcome_of.
  rewrite (resetUserCounters_run identityKey (Some window) w Hconf
             (no_faults_next w Hfaults)).
  cbn [fst snd]. split; [done|].
  set (w1 := set_store _ w).
  assert (Hal : aligned_window (resetWindowName window)).
  { destruct window; [by left|by (right; left)|by (right; right)]. }
  split.
  - destruct (checkWindowLimit_step identityKey (resetWindowName window) N path w1 0)
      as (w2 & -> & _); try done.
    + unfold client_available. cbn [w1 set_store w_env]. rewrite Hconf.
      apply orb_true_r.
    + unfold no_faults in *. cbn [w1 set_store w_faults].
      destruct (w_faults w); [done|]. by inversion Hfaults.
    + left. split; [done|]. cbn [w1 set_store w_redis w_tz w_now].
      simpl. apply lookup_delete_eq.
  - intros k Hk. cbn [w1 set_store w_redis]. simpl. by rewrite lookup_delete_ne.
Qed.

Lemma resetUserCounters_restarts_window_witness :
  let w := loadedWorld tightConfig storeEnv jan31_noon_ms [] (minuteCounterAt 2) in
  let w1 := world_after (resetUserCounters "ip:12ca17b49af22894" (Some ResetMinute)) w in
  outcome_of (resetUserCounters "ip:12ca17b49af22894" (Some ResetMinute)) w = Ret tt
  /\ outcome_of (checkWindowLimit "ip:12ca17b49af22894" "minute" 2 "/api/proxy/projects") w1
     = Ret (countedResult "minute" 2
              (getResetTime "minute" (getWindowStart 0 "minute" (jan31_noon_ms / 1000)))
              (jan31_noon_ms / 1000) 1)
  /\ forall k, k <> generateRedisKey "ip:12ca17b49af22894" "minute"
                      (getWindowStart 0 "minute" (jan31_noon_ms / 1000)) ->
               w_redis w1 !! k = w_redis w !! k.
Proof.
  apply (resetUserCounters_restarts_window "ip:12ca17b49af22894" ResetMinute 2
           "/api/proxy/projects"
           (loadedWorld tightConfig storeEnv jan31_noon_ms [] (minuteCounterAt 2))).
  - reflexivity.
  - constructor.
  - by vm_compute.
Defined.

(** X20: a reset of "all windows" deletes the identity's current minute,
    hour and day counters and nothing else: the month counter survives, and
    so do the counters of every other identity. *)
Theorem resetUserCounters_all_spares_month (identityKey : string) (w : World)
    (Hconf : redis_configured (w_env w) = true)
    (Hfault : next_fault w = false) :
  let w1 := world_after (resetUserCounters identityKey None) w in
  (forall window, In window ["minute"; "hour"; "day"] ->
      w_redis w1 !! generateRedisKey identityKey window
                      (getWindowStart (w_tz w) window (w_now w / 1000)) = None)
  /\ (forall windowStart,
         w_redis w1 !! generateRedisKey identityKey "month" windowStart
         = w_redis w !! generateRedisKey identityKey "month" windowStart)
  /\ (forall other window windowStart,
         other <> identityKey -> In window windowNames ->
         w_redis w1 !! generateRedisKey other window windowStart
         = w_redis w !! generateRedisKey other window windowStart).
Proof.
  cbv zeta. unfold world_after.
  rewrite (resetUserCounters_run identityKey None w Hconf Hfault).
  cbn [snd set_store w_redis]. simpl RedisMore.del.
  assert (Hne : forall k,
             (forall x, In x ["minute"; "hour"; "day"] ->
                        k <> generateRedisKey identityKey x
                               (getWindowStart (w_tz w) x (w_now w / 1000))) ->
             delete (generateRedisKey identityKey "minute"
                       (getWindowStart (w_tz w) "minute" (w_now w / 1000)))
               (delete (generateRedisKey identityKey "hour"
                          (getWindowStart (w_tz w) "hour" (w_now w / 1000)))
                  (delete (generateRedisKey identityKey "day"
                             (getWindowStart (w_tz w) "day" (w_now w / 1000)))
                     (w_redis w))) !! k = w_redis w !! k).
  { intros k Hk. rewrite !lookup_delete_ne; [done|..]; intros Heq; symmetry in Heq;
      revert Heq; apply Hk; simpl; auto. }
  split; [|split].
  - intros window [<- | [<- | [<- | []]]].
    + apply lookup_delete_eq.
    + rewrite lookup_delete_ne by (intros [= ?]). apply lookup_delete_eq.
    + rewrite !lookup_delete_ne by (intros [= ?]). apply lookup_delete_eq.
  - intros ws. apply Hne. intros x Hx Heq.
    assert (Hin : In x windowNames).
    { unfold windowNames. simpl in *. tauto. }
    destruct (generateRedisKey_inj _ _ _ _ _ _
                (or_intror (or_intror (or_intror (or_introl eq_refl)))) Hin Heq)
      as (_ & <- & _).
    simpl in Hx. destruct Hx as [Hx | [Hx | [Hx | []]]]; discriminate Hx.
  - intros other window ws Hother Hwin. apply Hne. intros x Hx Heq.
    assert (Hin : In x windowNames).
    { unfold windowNames. simpl in *. tauto. }
    by destruct (generateRedisKey_inj _ _ _ _ _ _ Hwin Hin Heq) as (? & _).
Qed.

Lemma resetUserCounters_all_spares_month_witness :
  let w := loadedWorld tightConfig storeEnv jan31_noon_ms [] (minuteCounterAt 2) in
  let w1 := world_after (resetUserCounters "ip:12ca17b49af22894" None) w in
  (forall window, In window ["minute"; "hour"; "day"] ->
      w_redis w1 !! generateRedisKey "ip:12ca17b49af22894" window
                      (getWindowStart (w_tz w) window (w_now w / 1000)) = None)
  /\ (forall windowStart,
         w_redis w1 !! generateRedisKey "ip:12ca17b49af22894" "month" windowStart
         = w_redis w !! generateRedisKey "ip:12ca17b49af22894" "month" windowStart)
  /\ (forall other window windowStart,
         other <> "ip:12ca17b49af22894" -> In window windowNames ->
         w_redis w1 !! generateRedisKey other window windowStart
         = w_redis w !! generateRedisKey other window windowStart).
Proof.
  apply (resetUserCounters_all_spares_month "ip:12ca17b49af22894"
           (loadedWorld tightConfig storeEnv jan31_noon_ms [] (minuteCounterAt 2)));
    reflexivity.
Defined.

(** ** Reading the keys back *)

Lemma split_nonempty (sep : ascii) (s : string) : JS.split sep s <> [].
Proof.
  destruct s as [|c s]; simpl; [done|].
  destruct (Ascii.eqb c sep); [done|]. by destruct (JS.split sep s).
Qed.

Lemma split_colon_free_prefix (a x : string) :
  has_char ":" a = false ->
  JS.split ":" (a +:+ ":" +:+ x) = a :: JS.split ":" x.
Proof.
  induction a as [|c a IH]; intros Ha; simpl in *.
  - reflexivity.
  - apply orb_false_elim in Ha as [Hc Ha]. rewrite Hc, (IH Ha). reflexivity.
Qed.

(** Joining what was split gives the string back. *)
Lemma join_split (s : string) : join ":" (JS.split ":" s) = s.
Proof.
  induction s as [|c s IH]; [reflexivity|]. simpl.
  destruct (Ascii.eqb c ":") eqn:Hc.
  - apply Ascii.eqb_eq in Hc as ->.
    pose proof (split_nonempty ":" s) as Hne.
    destruct (JS.split ":" s) as [|y ys] eqn:Hs; [done|].
    change (join ":" ("" :: y :: ys)) with ("" +:+ ":" +:+ join ":" (y :: ys)).
    by rewrite IH.
  - destruct (JS.split ":" s) as [|y ys] eqn:Hs; [by destruct (split_nonempty ":" s)|].
    destruct ys as [|z zs].
    + simpl in *. by rewrite IH.
    + change (join ":" (String c y :: z :: zs))
        with (String c (y +:+ ":" +:+ join ":" (z :: zs))).
      change (join ":" (y :: z :: zs)) with (y +:+ ":" +:+ join ":" (z :: zs)) in IH.
      by rewrite IH.
Qed.

(** X21: the administrative listing reads the limiter's keys back exactly.
    Taking a counter key apart the way [getAllUsers] does gives the window
    name and the identity the key was built from, colons inside the identity
    included. *)
Theorem parseRateKey_generateRedisKey (identityKey window : string) (windowStart : Z)
    (Hwindow : In window windowNames) :
  parseRateKey (generateRedisKey identityKey window windowStart)
  = Some (window, identityKey).
Proof.
  assert (Hc : has_char ":" window = false).
  { unfold windowNames in Hwindow.
    destruct Hwindow as [<- | [<- | [<- | [<- | []]]]]; reflexivity. }
  unfold parseRateKey, generateRedisKey.
  change ("rate:" +:+ window +:+ ":" +:+ JS.toString windowStart +:+ ":" +:+ identityKey)
    with ("rate" +:+ ":" +:+ (window +:+ ":" +:+ (JS.toString windowStart +:+ ":" +:+ identityKey))).
  rewrite (split_colon_free_prefix "rate") by reflexivity.
  rewrite (split_colon_free_prefix window) by exact Hc.
  rewrite (split_colon_free_prefix (JS.toString windowStart))
    by apply toString_colon_free.
  pose proof (split_nonempty ":" identityKey) as Hne.
  destruct (JS.split ":" identityKey) as [|y ys] eqn:Hs; [done|].
  cbn [length Nat.leb nth drop]. rewrite <- Hs, join_split. reflexivity.
Qed.

Lemma parseRateKey_generateRedisKey_witness :
  parseRateKey (generateRedisKey "jwt:tenant:42" "hour" 1706702400)
  = Some ("hour", "jwt:tenant:42").
Proof.
  apply (parseRateKey_generateRedisKey "jwt:tenant:42" "hour" 1706702400).
  right. left. reflexivity.
Defined.

(** ** Route scope *)

Lemma prefix_iff (p s : string) :
  String.prefix p s = true <-> exists t, s = p +:+ t.
Proof.
  revert s. induction p as [|a p IH]; intros s.
  - split; [intros _; by exists s|intros _; by destruct s].
  - destruct s as [|b s]; cbn [String.prefix].
    + split; [intros Hf; discriminate Hf|intros [t Ht]; discriminate Ht].
    + destruct (ascii_dec a b) as [<- | Hne].
      * rewrite IH. split; intros [t Ht]; exists t.
        -- by rewrite Ht.
        -- by injection Ht.
      * split; [intros Hf; discriminate Hf|].
        intros [t Ht]. injection Ht as Hab _. by destruct Hne.
Qed.

(** X22: a route is in scope exactly when its path begins with one of the
    configured patterns, character by character: a pattern also covers every
    longer path that merely starts with the same letters, and an empty
    pattern puts every path in scope.  The check never throws. *)
Theorem isRouteInScope_is_prefix_match (path : string) (w : World) (c : Config)
    (Hcfg : outcome_of loadConfig w = Ret c) :
  exists b,
    outcome_of (isRouteInScope path) w = Ret b
    /\ (b = true <-> exists route rest,
                       In route (routesInScope c) /\ path = route +:+ rest)
    /\ (In "" (routesInScope c) -> b = true).
Proof.
  destruct (loadConfig_returns w) as (c' & cc & m & Hload).
  unfold outcome_of in Hcfg. rewrite Hload in Hcfg. simpl in Hcfg.
  injection Hcfg as ->.
  unfold outcome_of, isRouteInScope, getIdentityConfig, bind. rewrite Hload.
  eexists. split; [reflexivity|].
  assert (Hiff : existsb (fun route => JS.startsWith path route) (routesInScope c) = true
                 <-> exists route rest,
                       In route (routesInScope c) /\ path = route +:+ rest).
  { rewrite existsb_exists. unfold JS.startsWith. split.
    - intros (route & Hin & (rest & ->)%prefix_iff). by exists route, rest.
    - intros (route & rest & Hin & ->). exists route. split; [done|].
      apply prefix_iff. by exists rest. }
  split; [exact Hiff|].
  intros Hempty. apply Hiff. by exists "", path.
Qed.

Lemma isRouteInScope_is_prefix_match_witness :
  exists b,
    outcome_of (isRouteInScope "/api/proxy/users-export") (freshWorld noEnv 0) = Ret b
    /\ (b = true <-> exists route rest,
                       In route (routesInScope defaultConfig)
                       /\ "/api/proxy/users-export" = route +:+ rest)
    /\ (In "" (routesInScope defaultConfig) -> b = true).
Proof.
  apply (isRouteInScope_is_prefix_match "/api/proxy/users-export"
           (freshWorld noEnv 0) defaultConfig).
  reflexivity.
Defined.

(** ** Verification records of different identities *)

Lemma getCacheKey_inj (a b : string) : getCacheKey a = getCacheKey b -> a = b.
Proof. unfold getCacheKey. apply (inj (String.app _)). Qed.

(** X23: verification records are kept per identity.  Recording or
    clearing the verification of one identity leaves the records of every
    other identity as they were, in the store and in the in-process map. *)
Theorem verification_records_are_per_identity (identityKey other token : string)
    (action : option string) (w : World)
    (Hother : other <> identityKey) :
  (w_redis (world_after (cacheVerification identityKey token action) w)
     !! getCacheKey other = w_redis w !! getCacheKey other
   /\ w_verificationCache (world_after (cacheVerification identityKey token action) w)
        !! getCacheKey other = w_verificationCache w !! getCacheKey other)
  /\ (w_redis (world_after (clearVerificationCache identityKey) w)
        !! getCacheKey other = w_redis w !! getCacheKey other
      /\ w_verificationCache (world_after (clearVerificationCache identityKey) w)
           !! getCacheKey other = w_verificationCache w !! getCacheKey other).
Proof.
  assert (Hne : getCacheKey identityKey <> getCacheKey other).
  { intros Heq. apply Hother. symmetry. by apply getCacheKey_inj. }
  split.
  - unfold world_after, cacheVerification, bind, try_catch, get_world.
    rewrite getTurnstileRedis_run.
    destruct (redis_configured (w_env w)).
    + unfold Redis.call_set_ex, Redis.roundtrip.
      cbn [set_turnstileRedis w_faults w_now w_redis].
      destruct (w_faults w) as [|[|] fs];
        destruct (ttlSeconds (cacheDuration (getTurnstileConfig (w_env w)))) as [s|];
        try destruct (0 <? s); simpl; unfold Redis.set_ex;
        rewrite ?lookup_insert_ne by done; done.
    + simpl. by rewrite lookup_insert_ne.
  - unfold world_after, clearVerificationCache, bind, try_catch.
    rewrite getTurnstileRedis_run.
    destruct (redis_configured (w_env w)).
    + rewrite call_del_run.
      destruct (next_fault (set_turnstileRedis true w)); simpl;
        rewrite ?lookup_delete_ne by done; done.
    + simpl. by rewrite lookup_delete_ne.
Qed.

Lemma verification_records_are_per_identity_witness :
  (w_redis (world_after (cacheVerification "ip:aaaa" "tok" None) world_verified)
     !! getCacheKey "ip:0123456789abcdef"
   = w_redis world_verified !! getCacheKey "ip:0123456789abcdef"
   /\ w_verificationCache (world_after (cacheVerification "ip:aaaa" "tok" None) world_verified)
        !! getCacheKey "ip:0123456789abcdef"
      = w_verificationCache world_verified !! getCacheKey "ip:0123456789abcdef")
  /\ (w_redis (world_after (clearVerificationCache "ip:aaaa") world_verified)
        !! getCacheKey "ip:0123456789abcdef"
      = w_redis world_verified !! getCacheKey "ip:0123456789abcdef"
      /\ w_verificationCache (world_after (clearVerificationCache "ip:aaaa") world_verified)
           !! getCacheKey "ip:0123456789abcdef"
         = w_verificationCache world_verified !! getCacheKey "ip:0123456789abcdef").
Proof.
  apply (verification_records_are_per_identity "ip:aaaa" "ip:0123456789abcdef" "tok"
           None world_verified).
  discriminate.
Defined.

(** ** Session cookies *)

Section SessionMore.
Context `{Platform}.

Lemma fold_parseCookie_None (cookies : list string) :
  fold_left parseCookie cookies None = None.
Proof. induction cookies as [|c rest IH]; [done|exact IH]. Qed.

(** X24: one undecodable cookie loses the session.  When the session is
    read from the [Cookie] header and any cookie of that header, not
    necessarily [sessionId], has a value on which [decodeURIComponent]
    throws, [extractSessionId] returns null, whatever the other cookies
    are. *)
Theorem extractSessionId_undecodable_cookie (request : NextRequest)
    (cookieHeader cookie name value : string) (more : list string)
    (Hstore : match req_cookies request with
              | CookiesOf (Some v) => JS.truthy v = false
              | _ => True
              end)
    (Hheader : h_Cookie request = Some cookieHeader)
    (Hin : In cookie (JS.split ";" cookieHeader))
    (Hparts : JS.split "=" (JS.trim cookie) = name :: value :: more)
    (Hname : JS.truthy name = true)
    (Hvalue : JS.truthy value = true)
    (Hdecode : decodeURIComponent value = None) :
  extractSessionId request = None.
Proof.
  unfold extractSessionId.
  assert (Hfrom : match req_cookies request with
                  | CookiesOf (Some v) => if JS.truthy v then Some v else None
                  | _ => None
                  end = None).
  { destruct (req_cookies request) as [|[v|]]; [done| |done]. by rewrite Hstore. }
  rewrite Hfrom, Hheader.
  destruct (negb (JS.truthy cookieHeader)); [done|].
  assert (Hfold : forall acc,
             fold_left parseCookie (JS.split ";" cookieHeader) acc = None).
  { induction (JS.split ";" cookieHeader) as [|c rest IH]; [destruct Hin|].
    intros acc. simpl. destruct Hin as [-> | Hin]; [|by apply IH].
    destruct acc as [m|]; [|apply fold_parseCookie_None].
    unfold parseCookie at 2. rewrite Hparts, Hname, Hvalue, Hdecode. simpl.
    apply fold_parseCookie_None. }
  by rewrite Hfold.
Qed.

(** X25: [applyRateLimit] never throws, and [enforceRateLimit] throws
    exactly when [applyRateLimit] denies: a store failure, a broken
    configuration or an unparsable URL never reach the caller as an
    exception; only the denial does. *)
Theorem enforceRateLimit_throws_only_on_denial (request : NextRequest) (w : World) :
  exists r w',
    applyRateLimit request w = (Ret r, w')
    /\ enforceRateLimit request w
       = (if allowed r then Ret (headers r) else Throw "Rate limit exceeded", w').
Proof.
  destruct (applyRateLimit_returns request w) as (r & w' & Hrun).
  exists r, w'. split; [exact Hrun|].
  unfold enforceRateLimit, bind. rewrite Hrun. by destruct (allowed r).
Qed.

End SessionMore.

Lemma extractSessionId_undecodable_cookie_witness :
  @extractSessionId strictPlatform strayPercentRequest = None.
Proof.
  apply (@extractSessionId_undecodable_cookie strictPlatform strayPercentRequest
           "pref=100%; sessionId=abc123" "pref=100%" "pref" "100%" []).
  - exact I.
  - reflexivity.
  - left. reflexivity.
  - reflexivity.
  - reflexivity.
  - reflexivity.
  - reflexivity.
Defined.

(** Without the stray cookie the same browser is identified by its session. *)
Example extractSessionId_plain_cookie :
  @extractSessionId strictPlatform
     {| url_pathname := Some "/api/proxy/projects"; h_Authorization := None;
        h_Cookie := Some "theme=dark; sessionId=abc123";
        h_x_forwarded_for := None; h_x_real_ip := None; h_cf_connecting_ip := None;
        req_ip := None; req_cookies := CookiesUnavailable |}
  = Some "abc123".
Proof. vm_compute. reflexivity. Qed.

(** ** Counting and failing open, per window *)

(** X26: within one minute, hour or day window, starting from a fresh
    counter and with the store answering, request number [k + 1] against a
    limit [N] is allowed with [remaining = N - (k + 1)] as long as
    [k + 1 <= N]; every later request is denied with [remaining = 0] and a
    [Retry-After] of [resetTime - now] seconds, which is positive. *)
Theorem aligned_windows_count_and_deny (identityKey window : string) (N : Z)
    (path : string) (windowStart : Z) (times : list Z) (w : World) (k : nat) (t : Z)
    (Hwindow : aligned_window window)
    (Hclient : client_available w = true)
    (Hfaults : no_faults w)
    (Htimes : Forall (fun t => 0 <= t
                     /\ getWindowStart (w_tz w) window (t / 1000) = windowStart) times)
    (Hfresh : w_redis w !! generateRedisKey identityKey window windowStart = None)
    (Hk : times !! k = Some t) :
  let count := Z.of_nat k + 1 in
  let retryAfter := getResetTime window windowStart - t / 1000 in
  exists r,
    (checkAt identityKey window N path times w).1 !! k = Some (Ret r)
    /\ resetTime r = getResetTime window windowStart
    /\ 0 < retryAfter
    /\ (count <= N -> allowed r = true /\ remaining r = N - count
                      /\ headers r !! "Retry-After" = None)
    /\ (N < count -> allowed r = false /\ remaining r = 0
                     /\ headers r !! "Retry-After" = Some (JS.toString retryAfter)).
Proof.
  cbv zeta.
  pose proof Hwindow as Hwin. pose proof Hclient as Hc. pose proof Hfaults as Hnf.
  pose proof Htimes as Hall.
  rewrite (checkAt_counts identityKey window N path windowStart times Hwin w 0 Hc Hnf Hall)
    by (left; done).
  rewrite list_lookup_imap, Hk. simpl. eexists. split; [reflexivity|].
  split; [reflexivity|].
  assert (Hpos : 0 < getResetTime window windowStart - t / 1000).
  { apply list_elem_of_lookup_2 in Hk.
    rewrite Forall_forall in Hall. destruct (Hall t Hk) as [Ht Hws].
    assert (Hts : 0 <= t / 1000) by (apply Z.div_pos; lia).
    destruct (aligned_window_start (w_tz w) window _ Hwin Hts) as (Hstart & Hmod & _).
    unfold getResetTime. lia. }
  split; [exact Hpos|]. unfold countedResult. simpl. split; intros Hcmp.
  - assert (Hle : (0 + Z.of_nat k + 1 <=? N) = true) by (apply Z.leb_le; lia).
    rewrite Hle. split; [done|]. split; [lia|done].
  - assert (Hle : (0 + Z.of_nat k + 1 <=? N) = false) by (apply Z.leb_gt; lia).
    rewrite Hle. split; [done|]. split; [lia|]. by rewrite lookup_insert_eq.
Qed.

(** Three requests in one minute against a limit of two. *)
Lemma aligned_windows_count_and_deny_witness :
  exists r,
    (checkAt "ip:0123456789abcdef" "minute" 2 "/api/proxy/projects"
       [jan31_noon_ms; jan31_noon_ms + 1000; jan31_noon_ms + 2000]
       (freshWorld storeEnv jan31_noon_ms)).1 !! 2%nat = Some (Ret r)
    /\ resetTime r = getResetTime "minute" jan31_noon
    /\ 0 < getResetTime "minute" jan31_noon - (jan31_noon_ms + 2000) / 1000
    /\ (Z.of_nat 2 + 1 <= 2 ->
        allowed r = true /\ remaining r = 2 - (Z.of_nat 2 + 1)
        /\ headers r !! "Retry-After" = None)
    /\ (2 < Z.of_nat 2 + 1 ->
        allowed r = false /\ remaining r = 0
        /\ headers r !! "Retry-After"
           = Some (JS.toString (getResetTime "minute" jan31_noon
                                - (jan31_noon_ms + 2000) / 1000))).
Proof.
  apply (aligned_windows_count_and_deny "ip:0123456789abcdef" "minute" 2
           "/api/proxy/projects" jan31_noon
           [jan31_noon_ms; jan31_noon_ms + 1000; jan31_noon_ms + 2000]
           (freshWorld storeEnv jan31_noon_ms) 2 (jan31_noon_ms + 2000)).
  - left. reflexivity.
  - reflexivity.
  - constructor.
  - repeat constructor; by vm_compute.
  - reflexivity.
  - reflexivity.
Defined.

(** X3: one window check fails open, visibly.  When the client exists and
    the pipeline throws, [checkWindowLimit] does not throw: it allows the
    request, reports the full limit as remaining and a reset 60 seconds
    ahead, and marks the answer with [X-RateLimit-Error:
    redis-unavailable]. *)
Theorem checkWindowLimit_store_error_is_marked (identityKey window : string)
    (lim : Z) (path : string) (w : World)
    (Hclient : client_available w = true)
    (Hfault : next_fault w = true) :
  exists r w',
    checkWindowLimit identityKey window lim path w = (Ret r, w')
    /\ allowed r = true
    /\ remaining r = lim
    /\ limit r = lim
    /\ resetTime r = w_now w / 1000 + 60
    /\ headers r !! "X-RateLimit-Error" = Some "redis-unavailable"
    /\ headers r !! "X-RateLimit-Remaining" = Some (JS.toString lim).
Proof.
  rewrite (checkWindowLimit_run identityKey window lim path w Hclient), Hfault.
  eexists _, _. split; [reflexivity|].
  split; [reflexivity|]. split; [reflexivity|]. split; [reflexivity|].
  split; [reflexivity|]. unfold degradedResult. simpl. split.
  - apply lookup_insert_eq.
  - do 3 (rewrite lookup_insert_ne by done). apply lookup_insert_eq.
Qed.

Lemma checkWindowLimit_store_error_is_marked_witness :
  exists r w',
    checkWindowLimit "ip:12ca17b49af22894" "hour" 100 "/api/proxy/projects"
      world_store_down = (Ret r, w')
    /\ allowed r = true
    /\ remaining r = 100
    /\ limit r = 100
    /\ resetTime r = w_now world_store_down / 1000 + 60
    /\ headers r !! "X-RateLimit-Error" = Some "redis-unavailable"
    /\ headers r !! "X-RateLimit-Remaining" = Some (JS.toString 100).
Proof.
  apply (checkWindowLimit_store_error_is_marked "ip:12ca17b49af22894" "hour" 100
           "/api/proxy/projects" world_store_down); reflexivity.
Defined.
